(** * AI-Learning-Coach: session memory and tool routing

    A shallow embedding of [memory_manager.py] (class [MemoryManager]) and of
    the dispatch logic of [learning_tools.py] (class [LearningTools]),
    together with the properties of the query annotators, of the bounded
    interaction log and of the router.

    Modelling conventions.
    - A Python [str] is a [string]; text is taken to be ASCII, where
      [str.lower] is the letter-wise map [A-Z] to [a-z]; any other byte is
      left as it is.
    - A Python [dict] whose iteration order is observed is an association
      list in insertion order.
    - [st.session_state[self.session_key]] is one shared object; it is the
      [memory] record threaded through every method.
    - An exception is a [Raise] result; the state reached when it is raised
      is kept, as Python does not roll mutations back. *)

From Stdlib Require Import String Ascii List ZArith Lia Bool Arith PeanoNat.
From Stdlib Require Import DecimalString.
Import ListNotations.
Open Scope string_scope.
Open Scope list_scope.
Open Scope nat_scope.

(** ** Python primitives *)

Module Py.

(** Exceptions the modelled code can meet. *)
Inductive exn : Type :=
| AttributeError
| TypeError
| KeyError
| ValueError
| APIError
| JSONDecodeError.

Inductive result (A : Type) : Type :=
| Ok (a : A)
| Raise (e : exn).
Arguments Ok {A} a.
Arguments Raise {A} e.

(** The values a caller can pass where the code expects text. *)
Inductive value : Type :=
| VNone
| VStr (s : string)
| VBytes (b : string)
| VInt (z : Z).

(** [c.lower()] on one ASCII character. *)
Definition lower_char (c : ascii) : ascii :=
  let n := nat_of_ascii c in
  if (65 <=? n) && (n <=? 90) then ascii_of_nat (n + 32) else c.

(** [s.lower()] *)
Fixpoint lower (s : string) : string :=
  match s with
  | EmptyString => EmptyString
  | String c rest => String (lower_char c) (lower rest)
  end.

(** [needle in hay] on two [str]. *)
Fixpoint contains (needle hay : string) : bool :=
  match hay with
  | EmptyString => prefix needle EmptyString
  | String _ rest => prefix needle hay || contains needle rest
  end.

(** [any(word in text for word in words)] *)
Definition any_in (words : list string) (text : string) : bool :=
  existsb (fun word => contains word text) words.

(** [sum(1 for kw in kws if kw in text)] *)
Definition sum_hits (kws : list string) (text : string) : nat :=
  list_sum (map (fun _ => 1) (filter (fun kw => contains kw text) kws)).

(** [l[-n:]] for a positive literal [n]. *)
Definition last_n {A : Type} (n : nat) (l : list A) : list A :=
  skipn (length l - n) l.

(** [max(items, key=key)]: the first item whose key is not exceeded;
    [ValueError] on an empty sequence. *)
Fixpoint max_from {A : Type} (key : A -> nat) (best : A) (rest : list A) : A :=
  match rest with
  | [] => best
  | x :: rest' =>
      if key best <? key x then max_from key x rest' else max_from key best rest'
  end.

Definition max_by {A : Type} (key : A -> nat) (items : list A) : result A :=
  match items with
  | [] => Raise ValueError
  | x :: rest => Ok (max_from key x rest)
  end.

(** A [dict] with [str] keys, in insertion order. *)
Definition dict (V : Type) : Type := list (string * V).

Fixpoint dict_get {V : Type} (d : dict V) (k : string) : option V :=
  match d with
  | [] => None
  | (k', v) :: d' => if String.eqb k' k then Some v else dict_get d' k
  end.

(** [d[k] = v]: an existing key keeps its position. *)
Fixpoint dict_set {V : Type} (d : dict V) (k : string) (v : V) : dict V :=
  match d with
  | [] => [(k, v)]
  | (k', v') :: d' =>
      if String.eqb k' k then (k', v) :: d' else (k', v') :: dict_set d' k v
  end.

(** [d[k] = d.get(k, 0) + 1]: one step of a frequency count. *)
Definition count_up (d : dict nat) (k : string) : dict nat :=
  dict_set d k (match dict_get d k with Some n => n | None => 0 end + 1).

(** [str(n)] for an [int]. *)
Definition str_of_Z (z : Z) : string := NilZero.string_of_int (Z.to_int z).

(** A method of [str] called on an arbitrary value: every annotator
    starts with [query.lower()] and then tests [kw in query_lower];
    [None] and [int] have no [lower], and [str in bytes] is a
    [TypeError]. *)
Definition on_str {A : Type} (f : string -> A) (v : value) : result A :=
  match v with
  | VStr s => Ok (f s)
  | VBytes _ => Raise TypeError
  | VNone | VInt _ => Raise AttributeError
  end.

End Py.

Import Py.

(** ** QueryAnnotator: the keyword heuristics of [MemoryManager] *)

Definition math_keywords : list string :=
  ["equation"; "algebra"; "geometry"; "calculus"; "trigonometry";
   "statistics"; "probability"; "derivative"; "integral"; "formula"].

Definition science_keywords : list string :=
  ["physics"; "chemistry"; "biology"; "atom"; "molecule";
   "cell"; "force"; "energy"; "reaction"; "evolution"].

Definition language_keywords : list string :=
  ["grammar"; "essay"; "writing"; "literature"; "poem";
   "analysis"; "thesis"; "paragraph"; "vocabulary"].

Definition history_keywords : list string :=
  ["war"; "revolution"; "empire"; "civilization"; "timeline";
   "ancient"; "medieval"; "modern"; "century"].

Definition all_keywords : list string :=
  math_keywords ++ science_keywords ++ language_keywords ++ history_keywords.

(** [_extract_topics]: the loop appends each keyword found, then [topics[:3]]. *)
Definition _extract_topics (query : string) : list string :=
  let query_lower := lower query in
  let topics :=
    fold_left
      (fun topics keyword =>
         if contains keyword query_lower then topics ++ [keyword] else topics)
      all_keywords [] in
  firstn 3 topics.

Definition advanced_indicators : list string :=
  ["advanced"; "complex"; "analyze"; "evaluate"; "synthesize";
   "derivative"; "integral"; "quantum"; "molecular"; "theorem"].

Definition basic_indicators : list string :=
  ["what is"; "how to"; "explain"; "simple"; "basic"; "introduction"].

Definition _estimate_difficulty (query : string) : string :=
  let query_lower := lower query in
  let advanced_count := sum_hits advanced_indicators query_lower in
  let basic_count := sum_hits basic_indicators query_lower in
  if basic_count <? advanced_count then "advanced"
  else if 0 <? basic_count then "beginner"
  else "intermediate".

Definition subject_keywords : dict (list string) :=
  [("Mathematics", ["math"; "algebra"; "geometry"; "calculus"; "equation"; "formula"; "solve"]);
   ("Physics", ["physics"; "force"; "energy"; "momentum"; "wave"; "electricity"; "magnetism"]);
   ("Chemistry", ["chemistry"; "atom"; "molecule"; "reaction"; "compound"; "element"]);
   ("Biology", ["biology"; "cell"; "DNA"; "evolution"; "organism"; "genetics"; "anatomy"]);
   ("Computer Science", ["programming"; "code"; "algorithm"; "software"; "computer"; "python"; "java"]);
   ("English", ["essay"; "writing"; "grammar"; "literature"; "poem"; "analysis"; "thesis"]);
   ("History", ["history"; "war"; "empire"; "revolution"; "ancient"; "medieval"; "timeline"]);
   ("Geography", ["geography"; "map"; "climate"; "country"; "continent"; "ocean"; "mountain"]);
   ("Art", ["art"; "painting"; "sculpture"; "artist"; "museum"; "drawing"; "design"]);
   ("Music", ["music"; "note"; "chord"; "rhythm"; "melody"; "instrument"; "composer"])].

(** The loop of [_identify_subject] that fills [subject_scores]. *)
Definition subject_scores_of (query_lower : string) : dict nat :=
  fold_left
    (fun subject_scores entry =>
       let score := sum_hits (snd entry) query_lower in
       if 0 <? score then dict_set subject_scores (fst entry) score
       else subject_scores)
    subject_keywords [].

(** [_identify_subject]: [max] runs only on a non-empty [subject_scores]. *)
Definition _identify_subject (query : string) : string :=
  let query_lower := lower query in
  match subject_scores_of query_lower with
  | [] => "General"
  | item :: rest => fst (max_from snd item rest)
  end.

Definition _classify_question_type (query : string) : string :=
  let query_lower := lower query in
  if any_in ["solve"; "calculate"; "find"; "compute"] query_lower then "problem_solving"
  else if any_in ["explain"; "what is"; "how does"; "why"] query_lower then "conceptual"
  else if any_in ["analyze"; "compare"; "evaluate"; "discuss"] query_lower then "analytical"
  else if any_in ["help"; "check"; "review"; "feedback"] query_lower then "assistance"
  else "general".


(** ** InteractionStore: the session memory *)

(** One entry of [memory["interactions"]]. The timestamp is the reading of
    [datetime.now()] in microseconds; [isoformat] and [fromisoformat] are
    inverse to each other and are left out. *)
Record interaction : Type := mk_interaction {
  timestamp : Z;
  user_query : value;
  ai_response : value;
  topics : list string;
  difficulty : string;
  subject : string
}.

(** [memory["learning_patterns"]]: a dict whose three keys appear over time. *)
Record learning_patterns : Type := mk_patterns {
  preferred_question_types : option (list string);
  difficulty_history : option (list string);
  difficulty_trend : option string
}.

(** [st.session_state["learning_memory"]] *)
Record memory : Type := mk_memory {
  interactions : list interaction;
  patterns : learning_patterns;
  subject_focus : dict nat;
  difficulty_tracking : dict nat;
  last_session : option Z
}.

Definition with_interactions (l : list interaction) (m : memory) : memory :=
  mk_memory l (patterns m) (subject_focus m) (difficulty_tracking m) (last_session m).

Definition with_patterns (p : learning_patterns) (m : memory) : memory :=
  mk_memory (interactions m) p (subject_focus m) (difficulty_tracking m) (last_session m).

(** The value [__init__] and [clear_memory] store. *)
Definition empty_memory : memory :=
  mk_memory [] (mk_patterns None None None) [] [] None.

(** Methods run on the shared memory and may raise; the memory at the point
    of the raise is the memory the handler sees. *)
Definition M (A : Type) : Type := memory -> memory * result A.

Definition ret {A : Type} (a : A) : M A := fun m => (m, Ok a).

Definition bind {A B : Type} (c : M A) (k : A -> M B) : M B :=
  fun m =>
    match c m with
    | (m', Ok a) => k a m'
    | (m', Raise e) => (m', Raise e)
    end.

Definition lift {A : Type} (r : result A) : M A := fun m => (m, r).

Definition modify (f : memory -> memory) : M unit := fun m => (f m, Ok tt).

Definition gets {A : Type} (f : memory -> A) : M A := fun m => (m, Ok (f m)).

(** [try: c  except Exception: pass] *)
Definition try_pass (c : M unit) : M unit :=
  fun m => (fst (c m), Ok tt).

Definition exec {A : Type} (c : M A) (m : memory) : memory := fst (c m).

Declare Scope py_scope.
Delimit Scope py_scope with py.
Notation "x <- c ;; k" := (bind c (fun x => k))
  (at level 61, c at next level, right associativity) : py_scope.
Notation "c ;; k" := (bind c (fun _ => k))
  (at level 61, right associativity) : py_scope.
Open Scope py_scope.

Definition max_interactions : nat := 50.

(** [difficulty_values[d]] *)
Definition difficulty_values (d : string) : result nat :=
  if String.eqb d "beginner" then Ok 1
  else if String.eqb d "intermediate" then Ok 2
  else if String.eqb d "advanced" then Ok 3
  else Raise KeyError.

(** [[difficulty_values[d] for d in recent]] *)
Fixpoint difficulty_scores (recent : list string) : result (list nat) :=
  match recent with
  | [] => Ok []
  | d :: rest =>
      match difficulty_values d with
      | Raise e => Raise e
      | Ok v =>
          match difficulty_scores rest with
          | Raise e => Raise e
          | Ok vs => Ok (v :: vs)
          end
      end
  end.

(** The [if]/[elif]/[else] on [scores[-1]] and [scores[0]]. *)
Definition trend_of_scores (scores : list nat) : string :=
  if nth 0 scores 0 <? last scores 0 then "increasing"
  else if last scores 0 <? nth 0 scores 0 then "decreasing"
  else "stable".

Definition or_empty {A : Type} (o : option (list A)) : list A :=
  match o with Some l => l | None => [] end.

(** The body of the [try] of [_update_learning_patterns]. [patterns] is the
    dict held by the memory itself, so each assignment to one of its keys is
    a write to the memory. *)
Definition _update_learning_patterns_body (i : interaction) : M unit :=
  query_type <- lift (on_str _classify_question_type (user_query i)) ;;
  modify (fun m =>
    let p := patterns m in
    let l := or_empty (preferred_question_types p) ++ [query_type] in
    with_patterns
      (mk_patterns (Some (last_n 10 l)) (difficulty_history p) (difficulty_trend p)) m) ;;
  modify (fun m =>
    let p := patterns m in
    let l := or_empty (difficulty_history p) ++ [difficulty i] in
    with_patterns
      (mk_patterns (preferred_question_types p) (Some (last_n 10 l)) (difficulty_trend p)) m) ;;
  history <- gets (fun m => or_empty (difficulty_history (patterns m))) ;;
  if 3 <=? length history then
    scores <- lift (difficulty_scores (last_n 3 history)) ;;
    modify (fun m =>
      let p := patterns m in
      with_patterns
        (mk_patterns (preferred_question_types p) (difficulty_history p)
           (Some (trend_of_scores scores))) m)
  else ret tt.

Definition _update_learning_patterns (i : interaction) : M unit :=
  try_pass (_update_learning_patterns_body i).

(** The body of the [try] of [add_interaction]; [now] is [datetime.now()]. *)
Definition add_interaction_body (now : Z) (user_query ai_response : value) : M unit :=
  topics <- lift (on_str _extract_topics user_query) ;;
  difficulty <- lift (on_str _estimate_difficulty user_query) ;;
  subject <- lift (on_str _identify_subject user_query) ;;
  let i := mk_interaction now user_query ai_response topics difficulty subject in
  modify (fun m => with_interactions (interactions m ++ [i]) m) ;;
  modify (fun m =>
    if max_interactions <? length (interactions m)
    then with_interactions (last_n max_interactions (interactions m)) m
    else m) ;;
  _update_learning_patterns i.

Definition add_interaction (now : Z) (user_query ai_response : value) : M unit :=
  try_pass (add_interaction_body now user_query ai_response).

Definition clear_memory : M unit := modify (fun _ => empty_memory).

(** *** Read accessors *)

(** [_format_duration]; the duration is in microseconds, and
    [int(duration.total_seconds())] truncates toward zero. *)
Definition _format_duration (duration : Z) : string :=
  let total_seconds := Z.quot duration 1000000 in
  if (total_seconds <? 60)%Z then (str_of_Z total_seconds ++ " seconds")%string
  else if (total_seconds <? 3600)%Z then
    let minutes := (total_seconds / 60)%Z in
    (str_of_Z minutes ++ " minutes")%string
  else
    let hours := (total_seconds / 3600)%Z in
    let minutes := ((total_seconds mod 3600) / 60)%Z in
    (str_of_Z hours ++ "h " ++ str_of_Z minutes ++ "m")%string.

(** Truth value of a [str]. *)
Definition truthy (s : string) : bool := negb (String.eqb s "").

(** [{}] built up by [counts[k] = counts.get(k, 0) + 1] over [keys]. *)
Definition frequencies (keys : list string) : dict nat :=
  fold_left count_up keys [].

Section Accessors.

(** [list(set(l))]: the distinct elements of [l] in the order in which the
    set iterates, which depends on the hash seed of the process. *)
Variable list_of_set : list string -> list string.

Definition get_learning_context_body (m : memory) : result string :=
  let recent_interactions := last_n 5 (interactions m) in
  match recent_interactions with
  | [] => Ok "No previous learning interactions in this session."
  | _ :: _ =>
      let recent_topics := flat_map topics recent_interactions in
      let recent_subjects :=
        map subject (filter (fun i => truthy (subject i)) recent_interactions) in
      let topic_part :=
        match recent_topics with
        | [] => []
        | _ :: _ =>
            [("Recent topics: " ++ String.concat ", " (list_of_set recent_topics))%string]
        end in
      let subject_part :=
        match recent_subjects with
        | [] => Ok []
        | _ :: _ =>
            match max_by snd (frequencies recent_subjects) with
            | Ok most_discussed =>
                Ok [("Primary subject focus: " ++ fst most_discussed)%string]
            | Raise e => Raise e
            end
        end in
      let p := patterns m in
      let prefers_part :=
        match preferred_question_types p with
        | Some (t :: ts) => [("Student prefers: " ++ String.concat ", " (t :: ts))%string]
        | _ => []
        end in
      let trend_part :=
        match difficulty_trend p with
        | Some trend =>
            if truthy trend then [("Difficulty progression: " ++ trend)%string] else []
        | None => []
        end in
      match subject_part with
      | Raise e => Raise e
      | Ok subject_part =>
          let context_parts := topic_part ++ subject_part ++ prefers_part ++ trend_part in
          match context_parts with
          | [] => Ok "Beginning of learning session."
          | _ :: _ => Ok (String.concat "; " context_parts)
          end
      end
  end.

Definition get_learning_context (m : memory) : string :=
  match get_learning_context_body m with
  | Ok s => s
  | Raise _ => "Unable to retrieve learning context."
  end.

Definition get_interaction_summary_body (m : memory) : result string :=
  match interactions m with
  | [] => Ok "No learning interactions recorded yet."
  | first :: _ =>
      let total_interactions := length (interactions m) in
      let subjects :=
        map subject (filter (fun i => truthy (subject i)) (interactions m)) in
      let subject_counts := frequencies subjects in
      let all_topics := flat_map topics (interactions m) in
      let unique_topics := list_of_set all_topics in
      let difficulties := map difficulty (last_n 10 (interactions m)) in
      let session_duration :=
        if 1 <? total_interactions
        then (timestamp (last (interactions m) first) - timestamp first)%Z
        else 0%Z in
      let most_discussed :=
        match subject_counts with
        | [] => Ok "Various"
        | _ :: _ =>
            match max_by snd subject_counts with
            | Ok item => Ok (fst item)
            | Raise e => Raise e
            end
        end in
      match most_discussed with
      | Raise e => Raise e
      | Ok most_discussed =>
          Ok (String.concat "; "
                [("Total interactions: " ++ str_of_Z (Z.of_nat total_interactions))%string;
                 ("Session duration: " ++ _format_duration session_duration)%string;
                 ("Topics explored: " ++ str_of_Z (Z.of_nat (length unique_topics))
                    ++ " unique topics")%string;
                 ("Most discussed subject: " ++ most_discussed)%string;
                 ("Recent difficulty level: " ++ last difficulties "Not assessed")%string])
      end
  end.

Definition get_interaction_summary (m : memory) : string :=
  match get_interaction_summary_body m with
  | Ok s => s
  | Raise _ => "Unable to generate interaction summary."
  end.

End Accessors.

Definition get_subject_statistics (m : memory) : dict nat :=
  frequencies (map subject (interactions m)).

(** A session: any interleaving of [add_interaction] and [clear_memory]
    started from the memory [__init__] creates. *)
Inductive reachable : memory -> Prop :=
| reach_init : reachable empty_memory
| reach_add now q r m :
    reachable m -> reachable (exec (add_interaction now q r) m)
| reach_clear m :
    reachable m -> reachable (exec clear_memory m).

(** One recorded call: the clock reading, the query and the response. *)
Definition call : Type := (Z * value * value)%type.

(** The calls of a session applied in order. *)
Definition add_all (calls : list call) (m : memory) : memory :=
  fold_left (fun m c => exec (add_interaction (fst (fst c)) (snd (fst c)) (snd c)) m)
    calls m.

(** The entry [add_interaction] builds for a textual query. *)
Definition annotate (now : Z) (q : string) (r : value) : interaction :=
  mk_interaction now (VStr q) r
    (_extract_topics q) (_estimate_difficulty q) (_identify_subject q).

(** A call whose query is text. *)
Definition text_call (t : Z * string * value) : call :=
  (fst (fst t), VStr (snd (fst t)), snd t).

(** The entries a sequence of calls leaves behind when nothing is evicted:
    one per call whose query is text. *)
Definition recorded (calls : list call) : list interaction :=
  flat_map
    (fun c =>
       match snd (fst c) with
       | VStr q => [annotate (fst (fst c)) q (snd c)]
       | _ => []
       end) calls.

(** The numeric mapping of the difficulty labels, 0 for anything else. *)
Definition rank (d : string) : nat :=
  match difficulty_values d with Ok v => v | Raise _ => 0 end.

(** A label that [difficulty_values] has a key for. *)
Definition known_label (d : string) : Prop := difficulty_values d = Ok (rank d).

(** The trend read off two samples. *)
Definition trend_between (first last : string) : string :=
  if rank first <? rank last then "increasing"
  else if rank last <? rank first then "decreasing"
  else "stable".

(** ** ToolRouter and ResponderRegistry: [LearningTools] *)

(** What [json.loads] can return. *)
#[local] Set Warnings "-register-all".
Inductive json : Type :=
| JNull
| JBool (b : bool)
| JNum (z : Z)
| JStr (s : string)
| JArr (l : list json)
| JObj (d : list (string * json)).

(** One call of [client.chat.completions.create]. *)
Record request : Type := mk_request {
  model : string;
  content : string;
  json_object : bool;
  max_tokens : nat
}.

Definition newline : string := String (ascii_of_nat 10) EmptyString.

(** Truth value of a parsed JSON value. *)
Definition json_truthy (j : json) : bool :=
  match j with
  | JNull => false
  | JBool b => b
  | JNum z => negb (z =? 0)%Z
  | JStr s => truthy s
  | JArr l => match l with [] => false | _ :: _ => true end
  | JObj d => match d with [] => false | _ :: _ => true end
  end.

(** [result.get(key)]: only a parsed object has [get]. *)
Definition json_get (j : json) (key : string) : result json :=
  match j with
  | JObj d => Ok (match dict_get d key with Some v => v | None => JNull end)
  | _ => Raise AttributeError
  end.

Section LearningTools.

(** The hosted model: the text of [response.choices[0].message.content],
    or the exception the call ends in. *)
Variable chat_completion : request -> result string.

(** [json.loads] *)
Variable json_loads : string -> result json.

(** The learner profile is a [dict]. *)
Definition profile : Type := dict json.

(** The f-string [tool_prompt] of [analyze_and_respond]. *)
Variable tool_prompt : string -> profile -> string.

(** The f-string [prompt] of the strategy registered under a tool name. *)
Variable strategy_prompt : string -> string -> profile -> string.

Definition strategy : Type := string -> profile -> string -> result string.

(** The shape shared by the eighteen strategies: one request with the
    strategy's prompt and output budget, and the reply behind the
    strategy's header. *)
Definition specialist (tool header : string) (budget : nat) : strategy :=
  fun query profile context =>
    match chat_completion (mk_request "gpt-4o" (strategy_prompt tool query profile) false budget) with
    | Ok text => Ok (header ++ newline ++ newline ++ text)%string
    | Raise e => Raise e
    end.

Definition _solve_math_problem := specialist "math_solver" "🔢 **Math Problem Solver**" 800.
Definition _explain_science_concept := specialist "science_explainer" "🔬 **Science Concept Explainer**" 800.
Definition _help_with_coding := specialist "coding_helper" "💻 **Coding Helper**" 800.
Definition _assist_with_writing := specialist "writing_assistant" "✍️ **Writing Assistant**" 800.
Definition _analyze_literature := specialist "literature_analysis" "📚 **Literature Analysis**" 800.
Definition _create_history_timeline := specialist "history_timeline" "📜 **History Timeline & Analysis**" 800.
Definition _provide_test_strategy := specialist "test_strategy" "🎯 **Test Preparation Strategy**" 800.
Definition _generate_practice_problems := specialist "practice_problems" "📝 **Practice Problems**" 800.
Definition _provide_formula_reference := specialist "formula_reference" "📐 **Formula Reference**" 600.
Definition _practice_language := specialist "language_practice" "🌍 **Language Practice**" 700.
Definition _check_grammar := specialist "grammar_checker" "✅ **Grammar Check**" 600.
Definition _help_with_geography := specialist "geography_helper" "🌍 **Geography Helper**" 700.
Definition _explain_economics := specialist "economics_explainer" "💰 **Economics Explainer**" 700.
Definition _analyze_politics := specialist "political_analysis" "🏛️ **Political Analysis**" 700.
Definition _explain_music_theory := specialist "music_theory" "🎵 **Music Theory Guide**" 700.
Definition _analyze_artwork := specialist "art_analysis" "🎨 **Art Analysis**" 700.
Definition _assist_creative_writing := specialist "creative_writing" "🖋️ **Creative Writing Assistant**" 700.
Definition _create_study_schedule := specialist "study_schedule" "📅 **Study Schedule Planner**" 700.

(** [self.tools] *)
Definition tools : dict strategy :=
  [("math_solver", _solve_math_problem);
   ("science_explainer", _explain_science_concept);
   ("coding_helper", _help_with_coding);
   ("formula_reference", _provide_formula_reference);
   ("writing_assistant", _assist_with_writing);
   ("literature_analysis", _analyze_literature);
   ("language_practice", _practice_language);
   ("grammar_checker", _check_grammar);
   ("history_timeline", _create_history_timeline);
   ("geography_helper", _help_with_geography);
   ("economics_explainer", _explain_economics);
   ("political_analysis", _analyze_politics);
   ("music_theory", _explain_music_theory);
   ("art_analysis", _analyze_artwork);
   ("creative_writing", _assist_creative_writing);
   ("test_strategy", _provide_test_strategy);
   ("practice_problems", _generate_practice_problems);
   ("study_schedule", _create_study_schedule)].

(** [tool_name in self.tools], then [self.tools[tool_name]]: a list or an
    object is unhashable, a number or a boolean equals no key. *)
Definition tools_lookup (tool_name : json) : result (option strategy) :=
  match tool_name with
  | JStr s => Ok (dict_get tools s)
  | JArr _ | JObj _ => Raise TypeError
  | JNull | JBool _ | JNum _ => Ok None
  end.

(** The classification exchange: the request, [json.loads] of the reply
    and [result.get("tool")]. *)
Definition tool_name_of (query : string) (p : profile) : result json :=
  match chat_completion (mk_request "gpt-4o" (tool_prompt query p) true 200) with
  | Raise e => Raise e
  | Ok text =>
      match json_loads text with
      | Raise e => Raise e
      | Ok parsed => json_get parsed "tool"
      end
  end.

(** The body of the [try] of [analyze_and_respond]. *)
Definition analyze_and_respond_body (query : string) (p : profile) (context : string)
  : result (option string) :=
  match tool_name_of query p with
  | Raise e => Raise e
  | Ok tool_name =>
      if json_truthy tool_name then
        match tools_lookup tool_name with
        | Raise e => Raise e
        | Ok (Some run) =>
            match run query p context with
            | Ok text => Ok (Some text)
            | Raise e => Raise e
            end
        | Ok None => Ok None
        end
      else Ok None
  end.

Definition analyze_and_respond (query : string) (p : profile) (context : string)
  : option string :=
  match analyze_and_respond_body query p context with
  | Ok r => r
  | Raise _ => None
  end.

(** The outcomes the router tells apart. *)
Definition classification_fails (query : string) (p : profile) : Prop :=
  exists e, tool_name_of query p = Raise e.

Definition tool_is_null (query : string) (p : profile) : Prop :=
  tool_name_of query p = Ok JNull.

Definition tool_not_registered (query : string) (p : profile) : Prop :=
  exists j, tool_name_of query p = Ok j /\
            forall s, j = JStr s -> dict_get tools s = None.

Definition strategy_fails (query : string) (p : profile) (context : string) : Prop :=
  exists s run e,
    tool_name_of query p = Ok (JStr s) /\
    dict_get tools s = Some run /\
    run query p context = Raise e.

End LearningTools.

Definition quote : string := String (ascii_of_nat 34) EmptyString.

(** A hosted model that answers the classification request with the tool
    "math_solver" and is out of quota for every other request. *)
Definition quota_after_classification (r : request) : result string :=
  if json_object r
  then Ok ("{" ++ quote ++ "tool" ++ quote ++ ": " ++ quote ++ "math_solver" ++ quote ++ "}")%string
  else Raise APIError.

(** A hosted model that answers every request. *)
Definition always_answers (r : request) : result string :=
  if json_object r
  then Ok ("{" ++ quote ++ "tool" ++ quote ++ ": " ++ quote ++ "math_solver" ++ quote ++ "}")%string
  else Ok "x = 2".

(** [json.loads] on the one reply the two models above give. *)
Definition loads_math_solver (text : string) : result json :=
  if String.eqb text
       ("{" ++ quote ++ "tool" ++ quote ++ ": " ++ quote ++ "math_solver" ++ quote ++ "}")%string
  then Ok (JObj [("tool", JStr "math_solver")])
  else Raise JSONDecodeError.

Definition sample_profile : dict json :=
  [("preferred_subjects", JArr []); ("learning_level", JStr "intermediate");
   ("study_goals", JArr []); ("progress_tracking", JObj [])].

(** ** Reading the stored state *)



(** The question type of a stored entry, as [_update_learning_patterns]
    computes it from the entry's query. *)
Definition question_type_of (i : interaction) : string :=
  match on_str _classify_question_type (user_query i) with
  | Ok t => t
  | Raise _ => ""
  end.

(** The learning patterns that belong to a list of stored entries: the
    question types and the difficulties of its last ten entries, and the
    trend between the third-last and the last difficulty. *)
Definition patterns_of (entries : list interaction) : learning_patterns :=
  match entries with
  | [] => mk_patterns None None None
  | _ :: _ =>
      let samples := map difficulty entries in
      mk_patterns
        (Some (map question_type_of (last_n 10 entries)))
        (Some (last_n 10 samples))
        (if 3 <=? length entries
         then Some (trend_between (nth (length samples - 3) samples "") (last samples ""))
         else None)
  end.

(** An entry whose labels are those of its own query. *)
Definition well_annotated (i : interaction) : Prop :=
  exists q,
    user_query i = VStr q /\
    topics i = _extract_topics q /\
    difficulty i = _estimate_difficulty q /\
    subject i = _identify_subject q.

(** ** The chat front end: [app.py] *)

Module App.

(** What a request to the hosted model ends in: the text of the reply, or
    [str(e)] of the exception raised. *)
Inductive outcome : Type :=
| Reply (text : string)
| Failure (error_msg : string).

(** The arguments of [openai_client.chat.completions.create]; [messages]
    are (role, content) pairs, [temperature] is kept as written. *)
Record api_request : Type := mk_api_request {
  api_model : string;
  api_messages : list (string * string);
  api_json_object : bool;
  api_max_tokens : nat;
  api_temperature : option string
}.

(** [st.session_state.learning_profile]; its [progress_tracking] is never
    read or written. *)
Record learning_profile : Type := mk_profile {
  preferred_subjects : list string;
  learning_level : string;
  study_goals : list string
}.

(** The profile as the dict handed to [LearningTools]. *)
Definition profile_dict (p : learning_profile) : dict json :=
  [("preferred_subjects", JArr (map JStr (preferred_subjects p)));
   ("learning_level", JStr (learning_level p));
   ("study_goals", JArr (map JStr (study_goals p)));
   ("progress_tracking", JObj [])].

(** What the quick tools show besides chat messages. *)
Inductive ui_event : Type :=
| Warning (text : string)
| Error (text : string)
| Markdown (text : string).

Definition quota_message : string := "
🚨 **OpenAI API Quota Exceeded**

Your OpenAI API key has exceeded its usage quota. To continue using the AI Learning Coach:

1. **Check your OpenAI account**: Visit https://platform.openai.com/usage
2. **Add billing**: Go to https://platform.openai.com/settings/billing
3. **Add credits**: Purchase credits or upgrade your plan
4. **Free tier**: If using free tier, you may need to wait or upgrade

The application will work normally once your quota is restored.
".

Definition rate_limit_message : string := "
⏱️ **Rate Limit Reached**

Too many requests were made recently. Please wait a moment and try again.
Your OpenAI API has temporary rate limiting active.
".

(** The [except] branch of [process_learning_query];
    [error_msg] is [str(e)]. *)
Definition error_reply (error_msg : string) : string :=
  if contains "insufficient_quota" error_msg
     || contains "exceeded your current quota" error_msg
  then quota_message
  else if contains "rate_limit" (lower error_msg) then rate_limit_message
  else ("I encountered an error while processing your question: " ++ error_msg
        ++ ". Please check your OpenAI API configuration.")%string.

(** [', '.join(items) if items else default] *)
Definition join_or (default : string) (items : list string) : string :=
  match items with
  | [] => default
  | _ :: _ => String.concat ", " items
  end.

Section FrontEnd.

(** The hosted model behind [openai_client]. *)
Variable client : api_request -> outcome.

Variable json_loads : string -> result json.

(** [list(set(l))] of [get_learning_context] and [get_interaction_summary]. *)
Variable list_of_set : list string -> list string.

(** [random.choice] *)
Variable choice : list string -> string.

(** The f-strings of [learning_tools.py]. *)
Variable tool_prompt : string -> dict json -> string.
Variable strategy_prompt : string -> string -> dict json -> string.

(** The f-strings of [app.py]: the system prompt from the joined subjects,
    the level, the joined goals and the learning context; the study plan and
    the study techniques from the level and the joined subjects; the quiz
    from the level and the subject; the report from the profile and the
    interaction summary. *)
Variable system_prompt : string -> string -> string -> string -> string.
Variable study_plan_prompt : string -> string -> string.
Variable quiz_prompt : string -> string -> string.
Variable report_prompt : learning_profile -> string -> string.
Variable techniques_prompt : string -> string -> string.

(** The client as [LearningTools] calls it: one user message, no
    temperature. *)
Definition tools_client (r : request) : result string :=
  match client (mk_api_request (model r) [("user", content r)] (json_object r)
                  (max_tokens r) None) with
  | Reply text => Ok text
  | Failure _ => Raise APIError
  end.

(** The general conversation of [process_learning_query], with its
    [except] branch. *)
Definition general_reply (p : learning_profile) (learning_context query : string)
  : string :=
  let prompt :=
    system_prompt (join_or "Not specified" (preferred_subjects p)) (learning_level p)
      (join_or "Not specified" (study_goals p)) learning_context in
  match client (mk_api_request "gpt-4o" [("system", prompt); ("user", query)] false
                  1000 (Some "0.7")) with
  | Reply text => text
  | Failure error_msg => error_reply error_msg
  end.

Definition process_learning_query (m : memory) (p : learning_profile) (query : string)
  : string :=
  let learning_context := get_learning_context list_of_set m in
  match analyze_and_respond tools_client json_loads tool_prompt strategy_prompt
          query (profile_dict p) learning_context with
  | Some tool_response =>
      if truthy tool_response then tool_response
      else general_reply p learning_context query
  | None => general_reply p learning_context query
  end.

(** [st.session_state]: the chat messages as (role, content) pairs, the
    memory and the profile. *)
Record session : Type := mk_session {
  chat_messages : list (string * string);
  session_memory : memory;
  session_profile : learning_profile
}.

(** One pass of the chat input of [main]; [prompt] is what [st.chat_input]
    returned and [now] the reading of the clock in [add_interaction]. *)
Definition chat_turn (now : Z) (prompt : string) (s : session) : session :=
  if truthy prompt then
    let response := process_learning_query (session_memory s) (session_profile s) prompt in
    mk_session
      (chat_messages s ++ [("user", prompt)] ++ [("assistant", response)])
      (exec (add_interaction now (VStr prompt) (VStr response)) (session_memory s))
      (session_profile s)
  else s.

(** The test of the [except] branches of the four quick tools. *)
Definition quota_exceeded (error_msg : string) : bool :=
  contains "insufficient_quota" error_msg
  || contains "exceeded your current quota" error_msg.

Definition create_study_plan (s : session) : list ui_event * session :=
  let p := session_profile s in
  match preferred_subjects p with
  | [] => ([Warning "Please select your preferred subjects in the sidebar first."], s)
  | _ :: _ =>
      let prompt :=
        study_plan_prompt (learning_level p) (String.concat ", " (preferred_subjects p)) in
      match client (mk_api_request "gpt-4o" [("user", prompt)] false 800 None) with
      | Reply study_plan =>
          ([Markdown "📝 **Your Personalized Study Plan:**"; Markdown study_plan],
           mk_session
             (chat_messages s
              ++ [("assistant",
                   ("📝 **Your Personalized Study Plan:**" ++ newline ++ newline
                    ++ study_plan)%string)])
             (session_memory s) p)
      | Failure error_msg =>
          if quota_exceeded error_msg
          then ([Error "🚨 OpenAI API quota exceeded. Please add credits to your OpenAI account at https://platform.openai.com/settings/billing"], s)
          else ([Error ("Error generating study plan: " ++ error_msg)%string], s)
      end
  end.

Definition generate_quiz (s : session) : list ui_event * session :=
  let p := session_profile s in
  match preferred_subjects p with
  | [] => ([Warning "Please select your preferred subjects in the sidebar first."], s)
  | _ :: _ =>
      let subject :=
        match preferred_subjects p with
        | [] => "General Knowledge"
        | _ :: _ => choice (preferred_subjects p)
        end in
      let prompt := quiz_prompt (learning_level p) subject in
      match client (mk_api_request "gpt-4o" [("user", prompt)] false 600 None) with
      | Reply quiz =>
          ([Markdown ("🎯 **Quiz Time: " ++ subject ++ "**")%string; Markdown quiz],
           mk_session
             (chat_messages s
              ++ [("assistant",
                   ("🎯 **Quiz Time: " ++ subject ++ "**" ++ newline ++ newline
                    ++ quiz)%string)])
             (session_memory s) p)
      | Failure error_msg =>
          if quota_exceeded error_msg
          then ([Error "🚨 OpenAI API quota exceeded. Please add credits to your OpenAI account."], s)
          else ([Error ("Error generating quiz: " ++ error_msg)%string], s)
      end
  end.

Definition show_progress_report (s : session) : list ui_event * session :=
  let interactions := get_interaction_summary list_of_set (session_memory s) in
  let p := session_profile s in
  let prompt := report_prompt p interactions in
  match client (mk_api_request "gpt-4o" [("user", prompt)] false 600 None) with
  | Reply report =>
      ([Markdown "📈 **Your Learning Progress Report:**"; Markdown report],
       mk_session
         (chat_messages s
          ++ [("assistant",
               ("📈 **Your Learning Progress Report:**" ++ newline ++ newline
                ++ report)%string)])
         (session_memory s) p)
  | Failure error_msg =>
      if quota_exceeded error_msg
      then ([Error "🚨 OpenAI API quota exceeded. Please add credits to your OpenAI account."], s)
      else ([Error ("Error generating progress report: " ++ error_msg)%string], s)
  end.

Definition get_study_techniques (s : session) : list ui_event * session :=
  let p := session_profile s in
  let prompt :=
    techniques_prompt (learning_level p) (join_or "various subjects" (preferred_subjects p)) in
  match client (mk_api_request "gpt-4o" [("user", prompt)] false 700 None) with
  | Reply techniques =>
      ([Markdown "🧠 **Personalized Study Techniques:**"; Markdown techniques],
       mk_session
         (chat_messages s
          ++ [("assistant",
               ("🧠 **Personalized Study Techniques:**" ++ newline ++ newline
                ++ techniques)%string)])
         (session_memory s) p)
  | Failure error_msg =>
      if quota_exceeded error_msg
      then ([Error "🚨 OpenAI API quota exceeded. Please add credits to your OpenAI account."], s)
      else ([Error ("Error generating study techniques: " ++ error_msg)%string], s)
  end.

End FrontEnd.

End App.

(** A hosted model whose classification reply is not JSON and which is
    throttled on every other request. *)
Definition throttled_client (r : App.api_request) : App.outcome :=
  if App.api_json_object r then App.Reply "no tool"
  else App.Failure "Error code: 429 - rate_limit_exceeded".

(** A hosted model that names "math_solver" in the classification and
    answers every other request. *)
Definition answering_client (r : App.api_request) : App.outcome :=
  if App.api_json_object r
  then App.Reply ("{" ++ quote ++ "tool" ++ quote ++ ": " ++ quote ++ "math_solver" ++ quote ++ "}")%string
  else App.Reply "x = 2".

Definition sample_learner : App.learning_profile :=
  App.mk_profile [] "intermediate" [].

(** What a quick tool may do to a session: it leaves the memory and the
    profile alone, and either shows a header and the model's reply and
    appends both as one assistant message, or shows one warning or one
    error and changes nothing. *)
Definition quick_tool_effect (s : App.session) (res : list App.ui_event * App.session)
  : Prop :=
  App.session_memory (snd res) = App.session_memory s /\
  App.session_profile (snd res) = App.session_profile s /\
  ((exists header reply,
      fst res = [App.Markdown header; App.Markdown reply] /\
      App.chat_messages (snd res)
      = App.chat_messages s
        ++ [("assistant", (header ++ newline ++ newline ++ reply)%string)]) \/
   (snd res = s /\
    exists text, fst res = [App.Warning text] \/ fst res = [App.Error text])).

(** * Properties *)

(** ** Python primitives *)

Lemma sum_hits_length kws text :
  sum_hits kws text = length (filter (fun kw => contains kw text) kws).
Proof.
  unfold sum_hits.
  induction (filter (fun kw => contains kw text) kws) as [|k l IH]; simpl; congruence.
Qed.

Lemma sum_hits_zero kws text :
  sum_hits kws text = 0 <-> (forall kw, In kw kws -> contains kw text = false).
Proof.
  rewrite sum_hits_length. split.
  - intros H kw Hin.
    destruct (contains kw text) eqn:E; [|reflexivity].
    assert (In kw (filter (fun kw => contains kw text) kws)) as Hf
      by (apply filter_In; auto).
    destruct (filter (fun kw => contains kw text) kws); [contradiction|discriminate].
  - intros H. induction kws as [|k kws IH]; simpl; [reflexivity|].
    rewrite (H k) by (left; reflexivity).
    apply IH. intros kw Hin. apply H. right; exact Hin.
Qed.

Lemma sum_hits_pos kws text kw :
  In kw kws -> contains kw text = true -> 0 < sum_hits kws text.
Proof.
  intros Hin Hc.
  destruct (sum_hits kws text) eqn:E; [|lia].
  apply sum_hits_zero with (kw := kw) in E; [congruence|exact Hin].
Qed.

Lemma lower_char_idem c : lower_char (lower_char c) = lower_char c.
Proof. destruct c as [[] [] [] [] [] [] [] []]; reflexivity. Qed.

Lemma lower_idem s : lower (lower s) = lower s.
Proof.
  induction s as [|c s IH]; simpl; [reflexivity|].
  now rewrite lower_char_idem, IH.
Qed.

(** No character of a lowered text is the capital letter [D]. *)
Lemma lower_char_not_D c : lower_char c <> "D"%char.
Proof. destruct c as [[] [] [] [] [] [] [] []]; vm_compute; discriminate. Qed.

Lemma contains_DNA_lower s : contains "DNA" (lower s) = false.
Proof.
  induction s as [|c s IH]; [reflexivity|].
  cbn [lower contains]. rewrite IH, orb_false_r.
  cbn [prefix].
  destruct (ascii_dec "D" (lower_char c)) as [E|_]; [|reflexivity].
  exfalso. exact (lower_char_not_D c (eq_sym E)).
Qed.

Lemma collect_matches (f : string -> bool) l acc :
  fold_left (fun topics keyword => if f keyword then topics ++ [keyword] else topics) l acc
  = acc ++ filter f l.
Proof.
  revert acc. induction l as [|k l IH]; intros acc; simpl.
  - now rewrite app_nil_r.
  - rewrite IH. destruct (f k); [|reflexivity].
    now rewrite <- app_assoc.
Qed.

Lemma dict_set_fresh {V : Type} (d : dict V) k v :
  ~ In k (map fst d) -> dict_set d k v = d ++ [(k, v)].
Proof.
  induction d as [|[k' v'] d IH]; simpl; intros Hn; [reflexivity|].
  destruct (String.eqb k' k) eqn:E.
  - apply String.eqb_eq in E. tauto.
  - rewrite IH; [reflexivity|tauto].
Qed.

(** [max] returns an item that splits the sequence: every earlier item has
    a strictly smaller key and no later item has a larger one. *)
Lemma max_from_split {A : Type} (key : A -> nat) rest : forall best,
  exists pre post,
    best :: rest = pre ++ max_from key best rest :: post /\
    Forall (fun y => key y < key (max_from key best rest)) pre /\
    Forall (fun y => key y <= key (max_from key best rest)) post.
Proof.
  induction rest as [|x rest IH]; intros best; simpl.
  - exists [], []. repeat split; constructor.
  - destruct (key best <? key x) eqn:E.
    + apply Nat.ltb_lt in E.
      destruct (IH x) as (pre & post & Heq & Hpre & Hpost).
      assert (key x <= key (max_from key x rest)) as Hx.
      { destruct pre as [|y pre]; simpl in Heq; injection Heq as Hy Hr.
        - rewrite <- Hy. lia.
        - rewrite <- Hy in Hpre. apply Forall_inv in Hpre. simpl in Hpre. lia. }
      exists (best :: pre), post. repeat split.
      * simpl. now rewrite Heq.
      * constructor; [lia|exact Hpre].
      * exact Hpost.
    + apply Nat.ltb_ge in E.
      destruct (IH best) as (pre & post & Heq & Hpre & Hpost).
      destruct pre as [|y pre]; simpl in Heq; injection Heq as Hb Hr.
      * exists [], (x :: rest). repeat split.
        -- simpl. now rewrite <- Hb.
        -- constructor.
        -- constructor; [rewrite <- Hb; exact E|].
           rewrite <- Hr in Hpost. exact Hpost.
      * rewrite <- Hb in Hpre.
        exists (best :: x :: pre), post. repeat split.
        -- simpl. do 2 f_equal. exact Hr.
        -- constructor; [exact (Forall_inv Hpre)|].
           constructor; [pose proof (Forall_inv Hpre) as Hlt; simpl in Hlt; lia|exact (Forall_inv_tail Hpre)].
        -- exact Hpost.
Qed.

Lemma max_from_map {A B : Type} (g : A -> B) (key : B -> nat) rest : forall best,
  max_from key (g best) (map g rest) = g (max_from (fun a => key (g a)) best rest).
Proof.
  induction rest as [|x rest IH]; intros best; simpl; [reflexivity|].
  destruct (key (g best) <? key (g x)); apply IH.
Qed.

Lemma filter_split {A : Type} (f : A -> bool) l : forall pre x post,
  filter f l = pre ++ x :: post ->
  exists pre' post',
    l = pre' ++ x :: post' /\ filter f pre' = pre /\ filter f post' = post.
Proof.
  induction l as [|a l IH]; intros pre x post H; simpl in H.
  - destruct pre; discriminate.
  - destruct (f a) eqn:E.
    + destruct pre as [|y pre]; simpl in H; injection H as Ha Hl.
      * exists [], l. rewrite <- Ha. repeat split; exact Hl.
      * destruct (IH _ _ _ Hl) as (pre' & post' & Hsplit & Hp & Hq).
        exists (a :: pre'), post'. simpl. rewrite E, Hp, Ha, Hsplit.
        repeat split; exact Hq.
    + destruct (IH _ _ _ H) as (pre' & post' & -> & <- & <-).
      exists (a :: pre'), post'. simpl. rewrite E. repeat split; reflexivity.
Qed.

(** ** QueryAnnotator *)

Lemma subject_scores_fold ql l : forall acc : dict nat,
  NoDup (map fst acc ++ map fst l) ->
  fold_left
    (fun subject_scores entry =>
       let score := sum_hits (snd entry) ql in
       if 0 <? score then dict_set subject_scores (fst entry) score
       else subject_scores) l acc
  = acc ++ map (fun e => (fst e, sum_hits (snd e) ql))
             (filter (fun e => 0 <? sum_hits (snd e) ql) l).
Proof.
  induction l as [|e l IH]; intros acc Hnd; simpl.
  - now rewrite app_nil_r.
  - simpl in Hnd.
    pose proof (NoDup_remove_1 _ _ _ Hnd) as Hnd1.
    pose proof (NoDup_remove_2 _ _ _ Hnd) as Hnd2.
    destruct (0 <? sum_hits (snd e) ql) eqn:E.
    + rewrite dict_set_fresh by (intro Hin; apply Hnd2, in_or_app; left; exact Hin).
      rewrite IH.
      * now rewrite <- app_assoc.
      * rewrite map_app, <- app_assoc. exact Hnd.
    + apply IH. exact Hnd1.
Qed.

Lemma subject_names_distinct : NoDup (map fst subject_keywords).
Proof.
  repeat (constructor; [simpl; intuition discriminate|]). constructor.
Qed.

Lemma subject_scores_of_filter ql :
  subject_scores_of ql
  = map (fun e => (fst e, sum_hits (snd e) ql))
      (filter (fun e => 0 <? sum_hits (snd e) ql) subject_keywords).
Proof.
  unfold subject_scores_of.
  rewrite subject_scores_fold; [reflexivity|].
  exact subject_names_distinct.
Qed.

(** Either no subject scores and the answer is "General", or the answer is
    the first subject of the fixed list whose score is the maximum. *)
Lemma identify_subject_cases q :
  let score := fun entry : string * list string => sum_hits (snd entry) (lower q) in
  ((forall entry, In entry subject_keywords -> score entry = 0) /\
   _identify_subject q = "General") \/
  (exists earlier winner later,
     subject_keywords = earlier ++ winner :: later /\
     _identify_subject q = fst winner /\
     0 < score winner /\
     Forall (fun e => score e < score winner) earlier /\
     Forall (fun e => score e <= score winner) later).
Proof.
  intros score. unfold _identify_subject.
  rewrite subject_scores_of_filter.
  change (fun e : string * list string => 0 <? sum_hits (snd e) (lower q))
    with (fun e => 0 <? score e).
  change (fun e : string * list string => (fst e, sum_hits (snd e) (lower q)))
    with (fun e => (fst e, score e)).
  destruct (filter (fun e => 0 <? score e) subject_keywords) as [|a rest] eqn:F.
  - left. split; [|reflexivity].
    intros entry Hin.
    destruct (score entry) eqn:E; [reflexivity|].
    assert (In entry (filter (fun e => 0 <? score e) subject_keywords)) as Hf.
    { apply filter_In. split; [exact Hin|]. rewrite E. reflexivity. }
    rewrite F in Hf. contradiction.
  - right. cbn [map].
    rewrite (max_from_map (fun e => (fst e, score e)) snd rest a). cbn [fst snd].
    destruct (max_from_split score rest a) as (pre & post & Heq & Hpre & Hpost).
    set (w := max_from score a rest) in *.
    rewrite <- F in Heq.
    destruct (filter_split _ _ _ _ _ Heq) as (earlier & later & Hsplit & Hfe & Hfl).
    assert (0 < score w) as Hw.
    { assert (In w (filter (fun e => 0 <? score e) subject_keywords)) as Hf
        by (rewrite Heq; apply in_or_app; right; left; reflexivity).
      apply filter_In in Hf. destruct Hf as [_ Hf]. now apply Nat.ltb_lt in Hf. }
    exists earlier, w, later. repeat split; try assumption.
    + apply Forall_forall. intros e He.
      destruct (0 <? score e) eqn:E.
      * rewrite Forall_forall in Hpre. apply Hpre. rewrite <- Hfe.
        apply filter_In; auto.
      * apply Nat.ltb_ge in E. lia.
    + apply Forall_forall. intros e He.
      destruct (0 <? score e) eqn:E.
      * rewrite Forall_forall in Hpost. apply Hpost. rewrite <- Hfl.
        apply filter_In; auto.
      * apply Nat.ltb_ge in E. lia.
Qed.

Lemma identify_subject_no_hits q :
  (forall entry, In entry subject_keywords -> sum_hits (snd entry) (lower q) = 0) ->
  _identify_subject q = "General".
Proof.
  intros Hzero.
  pose proof (identify_subject_cases q) as Hcases. cbv beta zeta in Hcases.
  destruct Hcases as [[_ Hgen] | (earlier & winner & later & Hsplit & _ & Hpos & _)];
    [exact Hgen|].
  rewrite (Hzero winner) in Hpos; [lia|].
  rewrite Hsplit. apply in_or_app. right. left. reflexivity.
Qed.

Lemma general_is_no_subject entry :
  In entry subject_keywords -> fst entry <> "General".
Proof.
  simpl. intros H.
  repeat (destruct H as [<-|H]; [simpl; discriminate|]). contradiction.
Qed.

Lemma sum_hits_without kws text k :
  contains k text = false ->
  sum_hits kws text = sum_hits (filter (fun kw => negb (String.eqb kw k)) kws) text.
Proof.
  intros Hk. rewrite !sum_hits_length.
  induction kws as [|kw kws IH]; simpl; [reflexivity|].
  destruct (String.eqb kw k) eqn:E; simpl.
  - apply String.eqb_eq in E. subst kw. rewrite Hk. exact IH.
  - destruct (contains kw text); simpl; congruence.
Qed.

(** C9. For every query [_extract_topics] returns at most three strings,
    each a member of the fixed vocabulary (the math, science, language and
    history keyword lists concatenated in that order): the keywords that
    occur in the lowercased query, in list order, cut to the first three.
    The scan does not depend on the case of the query. *)
Theorem extract_topics_spec (query : string) :
  all_keywords
    = math_keywords ++ science_keywords ++ language_keywords ++ history_keywords /\
  _extract_topics query
    = firstn 3 (filter (fun keyword => contains keyword (lower query)) all_keywords) /\
  length (_extract_topics query) <= 3 /\
  Forall (fun topic => In topic all_keywords) (_extract_topics query) /\
  _extract_topics (lower query) = _extract_topics query.
Proof.
  assert (_extract_topics query
          = firstn 3 (filter (fun keyword => contains keyword (lower query)) all_keywords))
    as Hscan by (unfold _extract_topics; now rewrite collect_matches).
  split; [reflexivity|]. split; [exact Hscan|]. split; [|split].
  - rewrite Hscan. apply firstn_le_length.
  - rewrite Hscan. apply Forall_forall. intros topic Hin.
    assert (In topic (filter (fun keyword => contains keyword (lower query)) all_keywords))
      as Hf.
    { rewrite <- (firstn_skipn 3). apply in_or_app. left. exact Hin. }
    apply filter_In in Hf. tauto.
  - unfold _extract_topics. now rewrite lower_idem.
Qed.

(** C4. For every query [_estimate_difficulty] returns one of the three
    labels: "advanced" when the advanced indicators found outnumber the
    basic ones, otherwise "beginner" when a basic indicator is found,
    otherwise "intermediate". Equal non-zero counts give "beginner", and so
    does a query that contains "explain" and no advanced indicator. *)
Theorem estimate_difficulty_spec (query : string) :
  let advanced_count := sum_hits advanced_indicators (lower query) in
  let basic_count := sum_hits basic_indicators (lower query) in
  (_estimate_difficulty query = "advanced" \/
   _estimate_difficulty query = "beginner" \/
   _estimate_difficulty query = "intermediate") /\
  (basic_count < advanced_count -> _estimate_difficulty query = "advanced") /\
  (advanced_count <= basic_count -> 0 < basic_count ->
   _estimate_difficulty query = "beginner") /\
  (advanced_count <= basic_count -> basic_count = 0 ->
   _estimate_difficulty query = "intermediate") /\
  (advanced_count = basic_count -> 0 < advanced_count ->
   _estimate_difficulty query = "beginner") /\
  (contains "explain" (lower query) = true -> advanced_count = 0 ->
   _estimate_difficulty query = "beginner").
Proof.
  intros advanced_count basic_count.
  assert (Hadv : basic_count < advanced_count -> _estimate_difficulty query = "advanced").
  { intros H. unfold _estimate_difficulty. fold advanced_count basic_count.
    apply Nat.ltb_lt in H. now rewrite H. }
  assert (Hbeg : advanced_count <= basic_count -> 0 < basic_count ->
                 _estimate_difficulty query = "beginner").
  { intros H1 H2. unfold _estimate_difficulty. fold advanced_count basic_count.
    apply Nat.ltb_ge in H1. apply Nat.ltb_lt in H2. now rewrite H1, H2. }
  assert (Hint : advanced_count <= basic_count -> basic_count = 0 ->
                 _estimate_difficulty query = "intermediate").
  { intros H1 H2. unfold _estimate_difficulty. fold advanced_count basic_count.
    apply Nat.ltb_ge in H1. rewrite H1, H2. reflexivity. }
  split; [|split; [exact Hadv|split; [exact Hbeg|split; [exact Hint|split]]]].
  - destruct (Nat.lt_ge_cases basic_count advanced_count) as [H|H]; [left; auto|].
    destruct (Nat.eq_0_gt_0_cases basic_count) as [H0|H0]; [right; right|right; left]; auto.
  - intros H1 H2. apply Hbeg; lia.
  - intros Hc H0. apply Hbeg; [lia|].
    apply (sum_hits_pos basic_indicators (lower query) "explain"); [|exact Hc].
    simpl. tauto.
Qed.

(** A query with equal non-zero counts, and one with "explain" alone. *)
Lemma estimate_difficulty_spec_witness :
  _estimate_difficulty "Explain the derivative" = "beginner" /\
  _estimate_difficulty "Could you explain photosynthesis?" = "beginner".
Proof.
  split.
  - apply (proj1 (proj2 (proj2 (proj2 (proj2
             (estimate_difficulty_spec "Explain the derivative")))))).
    + vm_compute. reflexivity.
    + vm_compute. lia.
  - apply (proj2 (proj2 (proj2 (proj2 (proj2
             (estimate_difficulty_spec "Could you explain photosynthesis?")))))).
    + vm_compute. reflexivity.
    + vm_compute. reflexivity.
Defined.

(** C5. For every query [_identify_subject] returns the subject whose
    keyword list has the most substring hits in the lowercased query; among
    subjects with the maximal count the first of the ten in the fixed order
    wins; the answer is "General" exactly when every count is zero. *)
Theorem identify_subject_spec (query : string) :
  let score := fun entry : string * list string => sum_hits (snd entry) (lower query) in
  length subject_keywords = 10 /\
  (_identify_subject query = "General" <->
   forall entry, In entry subject_keywords -> score entry = 0) /\
  ((exists entry, In entry subject_keywords /\ 0 < score entry) ->
   exists earlier winner later,
     subject_keywords = earlier ++ winner :: later /\
     _identify_subject query = fst winner /\
     Forall (fun e => score e < score winner) earlier /\
     Forall (fun e => score e <= score winner) later).
Proof.
  intros score. subst score. cbv beta. split; [reflexivity|].
  pose proof (identify_subject_cases query) as Hcases. cbv beta zeta in Hcases.
  destruct Hcases
    as [[Hzero Hgen] | (earlier & winner & later & Hsplit & Hres & Hpos & Hpre & Hpost)].
  - split; [tauto|].
    intros (entry & Hin & Hlt). rewrite (Hzero entry Hin) in Hlt. lia.
  - assert (In winner subject_keywords) as Hin
      by (rewrite Hsplit; apply in_or_app; right; left; reflexivity).
    split.
    + split.
      * intros Hgen. exfalso.
        apply (general_is_no_subject winner Hin). congruence.
      * intros Hzero. rewrite (Hzero winner Hin) in Hpos. lia.
    + intros _. exists earlier, winner, later. auto.
Qed.

(** "energy" and "force" give Physics two hits and "equation" one hit to
    Mathematics, which comes first in the list and still loses. *)
Lemma identify_subject_spec_witness :
  exists earlier winner later,
    subject_keywords = earlier ++ winner :: later /\
    _identify_subject "Which equation links energy and force?" = fst winner /\
    Forall (fun e => sum_hits (snd e) (lower "Which equation links energy and force?")
                     < sum_hits (snd winner) (lower "Which equation links energy and force?"))
      earlier /\
    Forall (fun e => sum_hits (snd e) (lower "Which equation links energy and force?")
                     <= sum_hits (snd winner) (lower "Which equation links energy and force?"))
      later.
Proof.
  apply (proj2 (proj2 (identify_subject_spec "Which equation links energy and force?"))).
  exists ("Physics",
          ["physics"; "force"; "energy"; "momentum"; "wave"; "electricity"; "magnetism"]).
  split.
  - simpl. tauto.
  - vm_compute. lia.
Defined.

(** C7, as the specification states it, fails: the query contains the basic
    indicator "explain", so its difficulty is not "intermediate". *)
Lemma respiration_query_not_intermediate :
  ~ (_identify_subject "Explain how cellular respiration works" = "Biology" /\
     _estimate_difficulty "Explain how cellular respiration works" = "intermediate" /\
     _classify_question_type "Explain how cellular respiration works" = "conceptual").
Proof.
  intros (_ & H & _). vm_compute in H. discriminate.
Qed.

(** C7, amended. For the query "Explain how cellular respiration works":
    [_identify_subject] returns "Biology" (the keyword "cell" occurs inside
    "cellular" and no other subject scores), [_estimate_difficulty] returns
    "beginner" (the basic indicator "explain" occurs and no advanced
    indicator does), and [_classify_question_type] returns "conceptual". *)
Theorem respiration_query_labels :
  let query := "Explain how cellular respiration works" in
  _identify_subject query = "Biology" /\
  contains "cell" (lower query) = true /\
  subject_scores_of (lower query) = [("Biology", 1)] /\
  _estimate_difficulty query = "beginner" /\
  sum_hits advanced_indicators (lower query) = 0 /\
  filter (fun kw => contains kw (lower query)) basic_indicators = ["explain"] /\
  _classify_question_type query = "conceptual".
Proof. vm_compute. repeat split; reflexivity. Qed.

(** C10. The Biology keyword "DNA" never adds to a score of
    [_identify_subject]: the test is made against the lowercased query, in
    which no capital letter is left, while the keyword is stored in capitals.
    So a query in which no other subject keyword occurs, such as
    "What is DNA?", is labelled "General" and not "Biology". *)
Theorem dna_keyword_never_matches (query : string) :
  (exists keywords, dict_get subject_keywords "Biology" = Some keywords /\ In "DNA" keywords) /\
  contains "DNA" (lower query) = false /\
  (forall entry, In entry subject_keywords ->
     sum_hits (snd entry) (lower query)
     = sum_hits (filter (fun kw => negb (String.eqb kw "DNA")) (snd entry)) (lower query)) /\
  ((forall entry kw, In entry subject_keywords -> In kw (snd entry) -> kw <> "DNA" ->
      contains kw (lower query) = false) ->
   _identify_subject query = "General") /\
  contains "dna" (lower "What is DNA?") = true /\
  _identify_subject "What is DNA?" = "General".
Proof.
  split; [|split; [|split; [|split; [|split]]]].
  - eexists. split; [reflexivity|]. simpl. tauto.
  - apply contains_DNA_lower.
  - intros entry _. apply sum_hits_without, contains_DNA_lower.
  - intros Hnone.
    apply identify_subject_no_hits.
    intros entry Hin. apply sum_hits_zero. intros kw Hkw.
    destruct (string_dec kw "DNA") as [->|Hne].
    + apply contains_DNA_lower.
    + exact (Hnone entry kw Hin Hkw Hne).
  - reflexivity.
  - vm_compute. reflexivity.
Qed.

(** "Tell me about dna" mentions no keyword of any subject except, in
    lower case, the one stored in capitals. *)
Lemma dna_keyword_never_matches_witness :
  _identify_subject "Tell me about dna" = "General".
Proof.
  apply (proj1 (proj2 (proj2 (proj2 (dna_keyword_never_matches "Tell me about dna"))))).
  intros entry kw Hentry. simpl in Hentry.
  repeat (destruct Hentry as [<-|Hentry];
          [simpl; intros Hkw;
           repeat (destruct Hkw as [<-|Hkw]; [intros _; vm_compute; reflexivity|]);
           contradiction|]).
  contradiction.
Defined.

(** ** InteractionStore *)

Lemma last_n_all {A : Type} n (l : list A) : length l <= n -> last_n n l = l.
Proof.
  intros H. unfold last_n. replace (length l - n) with 0 by lia. reflexivity.
Qed.

Lemma length_last_n {A : Type} n (l : list A) :
  length (last_n n l) = Nat.min n (length l).
Proof. unfold last_n. rewrite length_skipn. lia. Qed.

Lemma last_n_app_last_n {A : Type} n (l l' : list A) :
  last_n n (last_n n l ++ l') = last_n n (l ++ l').
Proof.
  destruct (Nat.le_gt_cases (length l) n) as [H|H].
  - now rewrite (last_n_all n l H).
  - unfold last_n at 1 3. rewrite !length_app, length_last_n.
    unfold last_n.
    replace (length l + length l' - n) with (length l' + (length l - n)) by lia.
    replace (Nat.min n (length l) + length l' - n) with (length l') by lia.
    rewrite <- skipn_skipn, (skipn_app (length l - n) l l').
    replace (length l - n - length l) with 0 by lia.
    reflexivity.
Qed.

Lemma last_n_last_n {A : Type} k n (l : list A) :
  k <= n -> last_n k (last_n n l) = last_n k l.
Proof.
  intros Hk. unfold last_n at 1. rewrite length_last_n. unfold last_n.
  rewrite skipn_skipn. f_equal. lia.
Qed.

Lemma last_n_three {A : Type} (l : list A) d :
  3 <= length l ->
  exists b, last_n 3 l = [nth (length l - 3) l d; b; last l d].
Proof.
  intros Hlen.
  pose proof (length_last_n 3 l) as Hthree.
  pose proof (nth_skipn (length l - 3) l 0 d) as Hnth.
  pose proof (firstn_skipn (length l - 3) l) as Hcut.
  unfold last_n in *.
  destruct (skipn (length l - 3) l) as [|x [|y [|z [|w rest]]]];
    cbn [length] in Hthree; try lia.
  exists y. cbn [nth] in Hnth. rewrite Nat.add_0_r in Hnth.
  rewrite <- Hnth. do 2 f_equal.
  rewrite <- Hcut at 1.
  change [x; y; z] with ([x; y] ++ [z]). rewrite app_assoc, last_last. reflexivity.
Qed.

Lemma Forall_last_n {A : Type} (P : A -> Prop) n (l : list A) :
  Forall P l -> Forall P (last_n n l).
Proof.
  intros H. rewrite Forall_forall in *. intros x Hx. apply H.
  rewrite <- (firstn_skipn (length l - n) l). apply in_or_app. right. exact Hx.
Qed.

(** What [_update_learning_patterns] does for an entry whose query is text. *)
Lemma update_learning_patterns_text i q m :
  user_query i = VStr q ->
  _update_learning_patterns_body i m =
    let p := patterns m in
    let types :=
      last_n 10 (or_empty (preferred_question_types p) ++ [_classify_question_type q]) in
    let history := last_n 10 (or_empty (difficulty_history p) ++ [difficulty i]) in
    if 3 <=? length history then
      match difficulty_scores (last_n 3 history) with
      | Ok scores =>
          (with_patterns
             (mk_patterns (Some types) (Some history) (Some (trend_of_scores scores))) m,
           Ok tt)
      | Raise e =>
          (with_patterns (mk_patterns (Some types) (Some history) (difficulty_trend p)) m,
           Raise e)
      end
    else
      (with_patterns (mk_patterns (Some types) (Some history) (difficulty_trend p)) m, Ok tt).
Proof.
  intros Hq.
  unfold _update_learning_patterns_body, bind, lift, modify, gets, ret.
  rewrite Hq. cbn [on_str with_patterns patterns interactions
                   preferred_question_types difficulty_history difficulty_trend
                   or_empty subject_focus difficulty_tracking last_session].
  destruct (3 <=? _); [|reflexivity].
  destruct (difficulty_scores _); reflexivity.
Qed.

Lemma update_learning_patterns_interactions i m :
  interactions (exec (_update_learning_patterns i) m) = interactions m.
Proof.
  unfold exec, _update_learning_patterns, try_pass. cbn [fst].
  unfold _update_learning_patterns_body, bind, lift, modify, gets, ret.
  destruct (on_str _classify_question_type (user_query i)); [|reflexivity].
  cbn [with_patterns patterns interactions difficulty_history or_empty].
  destruct (3 <=? _); [|reflexivity].
  destruct (difficulty_scores _); reflexivity.
Qed.

(** [add_interaction] on a text query: the annotated entry is appended, the
    list is cut to its last 50, and the patterns are updated. *)
Lemma add_interaction_body_text now q r m :
  add_interaction_body now (VStr q) r m =
    (exec (_update_learning_patterns (annotate now q r))
       (with_interactions
          (last_n max_interactions (interactions m ++ [annotate now q r])) m),
     Ok tt).
Proof.
  unfold add_interaction_body, bind, lift, modify. cbn [on_str].
  fold (annotate now q r).
  cbn [with_interactions interactions patterns subject_focus difficulty_tracking
       last_session].
  destruct (max_interactions <? length (interactions m ++ [annotate now q r])) eqn:E.
  - cbn [with_interactions interactions patterns subject_focus difficulty_tracking
         last_session].
    unfold _update_learning_patterns at 1, try_pass. unfold exec. reflexivity.
  - apply Nat.ltb_ge in E. rewrite (last_n_all _ _ E).
    unfold _update_learning_patterns at 1, try_pass. unfold exec. reflexivity.
Qed.

(** A query that is not text stops [add_interaction] at its first
    annotator, before any write. *)
Lemma add_interaction_body_not_text now q r m :
  (forall s, q <> VStr s) ->
  exists e, add_interaction_body now q r m = (m, Raise e).
Proof.
  intros Hq. unfold add_interaction_body, bind, lift.
  destruct q as [|s|b|z]; cbn [on_str]; eauto.
  exfalso. exact (Hq s eq_refl).
Qed.

(** Runs the pattern update for an entry whose query is the text [q]. *)
Ltac run_update q :=
  unfold exec, _update_learning_patterns, try_pass; cbn [fst];
  rewrite (update_learning_patterns_text _ q) by reflexivity;
  cbn zeta; cbn [with_interactions patterns annotate difficulty].

Lemma add_interaction_exec_text now q r m :
  exec (add_interaction now (VStr q) r) m =
    exec (_update_learning_patterns (annotate now q r))
      (with_interactions
         (last_n max_interactions (interactions m ++ [annotate now q r])) m).
Proof.
  unfold exec at 1, add_interaction, try_pass. cbn [fst].
  now rewrite add_interaction_body_text.
Qed.

Lemma add_interaction_exec_not_text now q r m :
  (forall s, q <> VStr s) -> exec (add_interaction now q r) m = m.
Proof.
  intros Hq. unfold exec, add_interaction, try_pass. cbn [fst].
  destruct (add_interaction_body_not_text now q r m Hq) as [e ->]. reflexivity.
Qed.

(** One call either appends its entry and keeps the last 50, or leaves the
    list alone. *)
Lemma interactions_add_interaction c m :
  length (interactions m) <= max_interactions ->
  interactions (exec (add_interaction (fst (fst c)) (snd (fst c)) (snd c)) m)
  = last_n max_interactions (interactions m ++ recorded [c]).
Proof.
  intros Hlen. destruct c as [[now q] r]. unfold recorded. cbn [fst snd flat_map].
  destruct q as [|s|b|z];
    try (rewrite add_interaction_exec_not_text by discriminate;
         rewrite !app_nil_r; symmetry; apply last_n_all; exact Hlen).
  rewrite add_interaction_exec_text, update_learning_patterns_interactions.
  rewrite app_nil_r. reflexivity.
Qed.

Lemma recorded_cons c calls : recorded (c :: calls) = recorded [c] ++ recorded calls.
Proof. unfold recorded. cbn [flat_map]. now rewrite app_nil_r. Qed.

Lemma interactions_add_all calls : forall m,
  length (interactions m) <= max_interactions ->
  interactions (add_all calls m)
  = last_n max_interactions (interactions m ++ recorded calls).
Proof.
  induction calls as [|c calls IH]; intros m Hlen.
  - cbn. rewrite app_nil_r. symmetry. apply last_n_all. exact Hlen.
  - change (add_all (c :: calls) m)
      with (add_all calls (exec (add_interaction (fst (fst c)) (snd (fst c)) (snd c)) m)).
    rewrite IH.
    + rewrite interactions_add_interaction by exact Hlen.
      rewrite last_n_app_last_n, (recorded_cons c calls), app_assoc. reflexivity.
    + rewrite interactions_add_interaction by exact Hlen.
      rewrite length_last_n. apply Nat.le_min_l.
Qed.

Lemma recorded_text_calls texts :
  recorded (map text_call texts)
  = map (fun t => annotate (fst (fst t)) (snd (fst t)) (snd t)) texts.
Proof.
  induction texts as [|t texts IH]; [reflexivity|].
  cbn [map]. rewrite (recorded_cons (text_call t)), IH. reflexivity.
Qed.

(** C1. The interaction log is a sliding window of the last 50 entries:
    after any sequence of [add_interaction] calls on a fresh memory it holds
    at most 50 entries, namely the last 50 recorded ones in insertion order;
    after exactly 55 additions it holds exactly 50, the 6th to the 55th. *)
Theorem interactions_sliding_window :
  (forall calls : list call,
     length (interactions (add_all calls empty_memory)) <= 50 /\
     interactions (add_all calls empty_memory) = last_n 50 (recorded calls)) /\
  (forall texts : list (Z * string * value),
     length texts = 55 ->
     let added := map (fun t => annotate (fst (fst t)) (snd (fst t)) (snd t)) texts in
     length (interactions (add_all (map text_call texts) empty_memory)) = 50 /\
     interactions (add_all (map text_call texts) empty_memory) = skipn 5 added).
Proof.
  assert (Hwin : forall calls,
            interactions (add_all calls empty_memory) = last_n 50 (recorded calls)).
  { intros calls. rewrite interactions_add_all by (cbn; unfold max_interactions; lia).
    reflexivity. }
  split.
  - intros calls. split; [|apply Hwin].
    rewrite Hwin, length_last_n. apply Nat.le_min_l.
  - intros texts Hlen added.
    rewrite Hwin, recorded_text_calls. fold added.
    assert (length added = 55) as Hadded by (unfold added; now rewrite length_map).
    split.
    + rewrite length_last_n, Hadded. reflexivity.
    + unfold last_n. rewrite Hadded. reflexivity.
Qed.

(** Fifty-five numbered questions, asked one microsecond apart. *)
Lemma interactions_sliding_window_witness :
  let texts := map (fun n => (Z.of_nat n, "What is algebra?", VStr "An answer."))
                 (seq 1 55) in
  length (interactions (add_all (map text_call texts) empty_memory)) = 50 /\
  interactions (add_all (map text_call texts) empty_memory)
  = skipn 5 (map (fun t => annotate (fst (fst t)) (snd (fst t)) (snd t)) texts).
Proof.
  intros texts.
  apply (proj2 interactions_sliding_window texts).
  reflexivity.
Defined.

(** Every label [_estimate_difficulty] produces is a key of
    [difficulty_values]. *)
Lemma estimate_difficulty_ranked q :
  difficulty_values (_estimate_difficulty q) = Ok (rank (_estimate_difficulty q)).
Proof.
  unfold rank, _estimate_difficulty.
  destruct (_ <? _); [reflexivity|]. destruct (_ <? _); reflexivity.
Qed.

Lemma difficulty_scores_known l :
  Forall known_label l -> difficulty_scores l = Ok (map rank l).
Proof.
  induction 1 as [|d l Hd _ IH]; [reflexivity|].
  cbn [difficulty_scores map]. rewrite Hd, IH. reflexivity.
Qed.

(** A session only ever stores labels of [difficulty_values] in the
    difficulty history. *)
Lemma reachable_history_known m :
  reachable m -> Forall known_label (or_empty (difficulty_history (patterns m))).
Proof.
  induction 1 as [|now q r m Hm IH|m Hm IH]; try (cbn; constructor).
  destruct q as [|s|b|z];
    try (rewrite add_interaction_exec_not_text by discriminate; exact IH).
  rewrite add_interaction_exec_text.
  run_update s.
  assert (Forall known_label
            (last_n 10 (or_empty (difficulty_history (patterns m))
                        ++ [_estimate_difficulty s]))) as Hk.
  { apply Forall_last_n, Forall_app. split; [exact IH|].
    constructor; [apply estimate_difficulty_ranked|constructor]. }
  destruct (3 <=? _); [|exact Hk].
  destruct (difficulty_scores _); exact Hk.
Qed.

(** C2. [add_interaction] never raises to its caller, whatever the query
    and the response are. In a session the only step of it that can fail is
    the annotation of a query that is not text, which comes before the first
    write: whenever the body fails the memory is exactly what it was before
    the call, and the nested update of the learning patterns does not fail. *)
Theorem add_interaction_fail_silent now (q r : value) m :
  reachable m ->
  snd (add_interaction now q r m) = Ok tt /\
  (forall e, snd (add_interaction_body now q r m) = Raise e ->
     fst (add_interaction_body now q r m) = m /\
     exec (add_interaction now q r) m = m) /\
  (forall text, q = VStr text ->
     snd (add_interaction_body now q r m) = Ok tt /\
     snd (_update_learning_patterns_body (annotate now text r)
            (with_interactions
               (last_n max_interactions (interactions m ++ [annotate now text r])) m))
     = Ok tt).
Proof.
  intros Hm. split; [reflexivity|]. split.
  - intros e He.
    destruct q as [|s|b|z];
      try (split; [reflexivity|apply add_interaction_exec_not_text; discriminate]).
    rewrite add_interaction_body_text in He. discriminate.
  - intros text ->. split; [now rewrite add_interaction_body_text|].
    rewrite (update_learning_patterns_text _ text) by reflexivity.
    cbn zeta. cbn [with_interactions patterns annotate difficulty].
    destruct (3 <=? _); [|reflexivity].
    rewrite difficulty_scores_known; [reflexivity|].
    apply Forall_last_n, Forall_last_n, Forall_app. split.
    + apply reachable_history_known. exact Hm.
    + constructor; [apply estimate_difficulty_ranked|constructor].
Qed.

(** A call with [None] for a query, after three recorded interactions. *)
Lemma add_interaction_fail_silent_witness :
  let m := add_all [(1%Z, VStr "What is a cell?", VStr "a");
                    (2%Z, VStr "Analyze the theorem", VStr "b");
                    (3%Z, VStr "Tell me more", VStr "c")] empty_memory in
  fst (add_interaction_body 4%Z VNone (VStr "d") m) = m /\
  exec (add_interaction 4%Z VNone (VStr "d")) m = m.
Proof.
  intros m.
  refine (proj1 (proj2 (add_interaction_fail_silent 4%Z VNone (VStr "d") m _))
            AttributeError _).
  - unfold m, add_all. cbn [fold_left fst snd]. repeat apply reach_add. apply reach_init.
  - reflexivity.
Defined.

(** The learning patterns after one more text query. *)
Lemma patterns_add_text now q r m :
  patterns (exec (add_interaction now (VStr q) r) m) =
    let p := patterns m in
    let types :=
      last_n 10 (or_empty (preferred_question_types p) ++ [_classify_question_type q]) in
    let history :=
      last_n 10 (or_empty (difficulty_history p) ++ [_estimate_difficulty q]) in
    mk_patterns (Some types) (Some history)
      (if 3 <=? length history then
         match difficulty_scores (last_n 3 history) with
         | Ok scores => Some (trend_of_scores scores)
         | Raise _ => difficulty_trend p
         end
       else difficulty_trend p).
Proof.
  rewrite add_interaction_exec_text.
  run_update q.
  destruct (3 <=? _); [|reflexivity].
  destruct (difficulty_scores _); reflexivity.
Qed.

Lemma add_all_snoc calls c m :
  add_all (calls ++ [c]) m
  = exec (add_interaction (fst (fst c)) (snd (fst c)) (snd c)) (add_all calls m).
Proof. unfold add_all. now rewrite fold_left_app. Qed.

(** The difficulty history is the last ten samples, and no trend is set
    before the third sample. *)
Lemma history_add_all texts :
  let m := add_all (map text_call texts) empty_memory in
  let samples := map (fun t => _estimate_difficulty (snd (fst t))) texts in
  or_empty (difficulty_history (patterns m)) = last_n 10 samples /\
  (length texts < 3 -> difficulty_trend (patterns m) = None).
Proof.
  induction texts as [|t texts IH] using rev_ind; [split; reflexivity|].
  cbn zeta in *. destruct IH as [IHh IHt].
  rewrite !map_app. cbn [map]. rewrite add_all_snoc.
  destruct t as [[now q] r]. cbn [text_call fst snd].
  rewrite patterns_add_text. cbn zeta.
  cbn [difficulty_history difficulty_trend or_empty].
  rewrite IHh, last_n_app_last_n. split; [reflexivity|].
  intros Hlen. rewrite length_app in Hlen. cbn [length] in Hlen.
  replace (3 <=? _) with false.
  - apply IHt. lia.
  - symmetry. apply Nat.leb_gt. rewrite length_last_n, length_app, length_map.
    cbn [length]. lia.
Qed.

Lemma samples_known texts :
  Forall known_label (map (fun t : Z * string * value => _estimate_difficulty (snd (fst t))) texts).
Proof.
  apply Forall_forall. intros d Hd. apply in_map_iff in Hd.
  destruct Hd as (t & <- & _). apply estimate_difficulty_ranked.
Qed.

(** C6. The difficulty trend is unset until the third sample; from then on
    it compares only the first and the last of the three most recent
    samples, under beginner = 1, intermediate = 2, advanced = 3. After
    exactly three additions with samples beginner, intermediate, advanced it
    is "increasing"; with advanced, intermediate, beginner it is
    "decreasing"; with intermediate, advanced, intermediate it is "stable". *)
Theorem difficulty_trend_spec (texts : list (Z * string * value)) :
  let m := add_all (map text_call texts) empty_memory in
  let samples := map (fun t => _estimate_difficulty (snd (fst t))) texts in
  (rank "beginner" = 1 /\ rank "intermediate" = 2 /\ rank "advanced" = 3) /\
  (length texts < 3 -> difficulty_trend (patterns m) = None) /\
  (forall a b c, last_n 3 samples = [a; b; c] ->
     difficulty_trend (patterns m) = Some (trend_between a c)) /\
  (3 <= length texts ->
     difficulty_trend (patterns m)
     = Some (trend_between (nth (length samples - 3) samples "") (last samples ""))) /\
  (samples = ["beginner"; "intermediate"; "advanced"] ->
     difficulty_trend (patterns m) = Some "increasing") /\
  (samples = ["advanced"; "intermediate"; "beginner"] ->
     difficulty_trend (patterns m) = Some "decreasing") /\
  (samples = ["intermediate"; "advanced"; "intermediate"] ->
     difficulty_trend (patterns m) = Some "stable").
Proof.
  intros m samples.
  assert (Hrecent : forall a b c, last_n 3 samples = [a; b; c] ->
            difficulty_trend (patterns m) = Some (trend_between a c)).
  { intros a b c Hlast. subst m samples.
    destruct texts as [|t texts] using rev_ind; [discriminate|]. clear IHtexts.
    pose proof (samples_known (texts ++ [t])) as Hknown.
    destruct (history_add_all texts) as [Hh _]. cbn zeta in Hh.
    rewrite map_app in *. cbn [map] in *. rewrite add_all_snoc.
    destruct t as [[now q] r]. cbn [text_call fst snd] in *.
    rewrite patterns_add_text. cbn zeta. cbn [difficulty_trend].
    rewrite Hh, last_n_app_last_n, last_n_last_n by lia.
    rewrite Hlast.
    replace (3 <=? _) with true.
    - rewrite difficulty_scores_known.
      + reflexivity.
      + rewrite <- Hlast. apply Forall_last_n. exact Hknown.
    - symmetry. apply Nat.leb_le.
      apply (f_equal (@length string)) in Hlast.
      rewrite length_last_n in Hlast. rewrite length_last_n.
      cbn [length] in Hlast. lia. }
  split; [repeat split; reflexivity|].
  split; [apply (proj2 (history_add_all texts))|].
  split; [exact Hrecent|].
  split.
  { intros Hlen.
    destruct (last_n_three samples "") as [b Hb];
      [unfold samples; now rewrite length_map|].
    exact (Hrecent _ _ _ Hb). }
  repeat split; intros Hs;
    rewrite (Hrecent _ _ _ (f_equal (last_n 3) Hs)); reflexivity.
Qed.

(** Three sessions of three questions each, one per scenario. *)
Lemma difficulty_trend_spec_witness :
  let beginner := (1%Z, "What is a cell?", VStr "a") in
  let intermediate := (2%Z, "Photosynthesis in plants", VStr "b") in
  let advanced := (3%Z, "Analyze the quantum theorem", VStr "c") in
  difficulty_trend
    (patterns (add_all (map text_call [beginner; intermediate; advanced]) empty_memory))
  = Some "increasing" /\
  difficulty_trend
    (patterns (add_all (map text_call [advanced; intermediate; beginner]) empty_memory))
  = Some "decreasing" /\
  difficulty_trend
    (patterns (add_all (map text_call [intermediate; advanced; intermediate]) empty_memory))
  = Some "stable" /\
  difficulty_trend
    (patterns (add_all (map text_call [beginner; advanced]) empty_memory))
  = None.
Proof.
  intros beginner intermediate advanced.
  split; [|split; [|split]].
  - apply (proj1 (proj2 (proj2 (proj2 (proj2
             (difficulty_trend_spec [beginner; intermediate; advanced])))))).
    vm_compute. reflexivity.
  - apply (proj1 (proj2 (proj2 (proj2 (proj2 (proj2
             (difficulty_trend_spec [advanced; intermediate; beginner]))))))).
    vm_compute. reflexivity.
  - apply (proj2 (proj2 (proj2 (proj2 (proj2 (proj2
             (difficulty_trend_spec [intermediate; advanced; intermediate]))))))).
    vm_compute. reflexivity.
  - apply (proj1 (proj2 (difficulty_trend_spec [beginner; advanced]))).
    cbn. lia.
Defined.

(** C8. After [clear_memory], on any memory, every read accessor gives
    what it gives on a fresh memory: [get_learning_context] the sentence
    "No previous learning interactions in this session.",
    [get_interaction_summary] the sentence
    "No learning interactions recorded yet.", and [get_subject_statistics]
    the empty mapping. *)
Theorem clear_memory_restores_fresh_outputs
  (list_of_set : list string -> list string) (m : memory) :
  let cleared := exec clear_memory m in
  snd (clear_memory m) = Ok tt /\
  cleared = empty_memory /\
  get_learning_context list_of_set cleared
    = "No previous learning interactions in this session." /\
  get_interaction_summary list_of_set cleared
    = "No learning interactions recorded yet." /\
  get_subject_statistics cleared = [] /\
  get_learning_context list_of_set cleared
    = get_learning_context list_of_set empty_memory /\
  get_interaction_summary list_of_set cleared
    = get_interaction_summary list_of_set empty_memory /\
  get_subject_statistics cleared = get_subject_statistics empty_memory.
Proof. repeat split; reflexivity. Qed.

(** ** ToolRouter *)

Lemma truthy_false s : truthy s = false -> s = "".
Proof.
  unfold truthy. intros H. apply negb_false_iff in H. now apply String.eqb_eq.
Qed.

Section RouterProperties.

Variable chat_completion : request -> result string.
Variable json_loads : string -> result json.
Variable tool_prompt : string -> dict json -> string.
Variable strategy_prompt : string -> string -> dict json -> string.

Let route := analyze_and_respond chat_completion json_loads tool_prompt strategy_prompt.
Let tool := tool_name_of chat_completion json_loads tool_prompt.
Let registry := tools chat_completion strategy_prompt.

Lemma registry_size : length registry = 18 /\ NoDup (map fst registry).
Proof.
  split; [reflexivity|].
  cbn [registry tools map fst].
  repeat (constructor; [simpl; intuition discriminate|]). constructor.
Qed.

(** A strategy that returns does so with text, so a registry hit is
    [None] only when the strategy raises. *)
Lemma route_dispatch query p context s run :
  tool query p = Ok (JStr s) ->
  dict_get registry s = Some run ->
  route query p context
  = match run query p context with Ok text => Some text | Raise _ => None end.
Proof.
  intros Ht Hr. subst route tool registry.
  unfold analyze_and_respond, analyze_and_respond_body. rewrite Ht.
  cbn [json_truthy tools_lookup].
  destruct (truthy s) eqn:E.
  - rewrite Hr. destruct (run query p context); reflexivity.
  - apply truthy_false in E. subst s. discriminate.
Qed.

Lemma route_miss query p context j :
  tool query p = Ok j ->
  (forall s, j = JStr s -> dict_get registry s = None) ->
  route query p context = None.
Proof.
  intros Ht Hr. subst route tool registry.
  unfold analyze_and_respond, analyze_and_respond_body. rewrite Ht.
  destruct j as [|b|z|s|l|d]; cbn [json_truthy tools_lookup].
  - reflexivity.
  - destruct b; reflexivity.
  - destruct (negb _); reflexivity.
  - rewrite (Hr s eq_refl). destruct (truthy s); reflexivity.
  - destruct l; reflexivity.
  - destruct d; reflexivity.
Qed.

End RouterProperties.

(** C3, as the specification states it, fails: with a classification that
    names the registered tool "math_solver" and a hosted model that refuses
    the strategy's own request, the router returns [None] although the
    classification succeeded, the tool is not null and it is a registry key. *)
Lemma analyze_and_respond_none_on_registry_hit :
  let chat := quota_after_classification in
  let tool_prompt := fun (query : string) (_ : dict json) => query in
  let strategy_prompt := fun (_ query : string) (_ : dict json) => query in
  let query := "Solve 2x + 3 = 7" in
  ~ (analyze_and_respond chat loads_math_solver tool_prompt strategy_prompt
       query sample_profile "" = None <->
     classification_fails chat loads_math_solver tool_prompt query sample_profile \/
     tool_is_null chat loads_math_solver tool_prompt query sample_profile \/
     tool_not_registered chat loads_math_solver tool_prompt strategy_prompt
       query sample_profile).
Proof.
  intros chat tool_prompt strategy_prompt query [Hnone _].
  specialize (Hnone eq_refl).
  destruct Hnone as [[e He] | [Hnull | (j & Hj & Habsent)]].
  - vm_compute in He. discriminate.
  - vm_compute in Hnull. discriminate.
  - assert (j = JStr "math_solver") as -> by (vm_compute in Hj; congruence).
    specialize (Habsent "math_solver" eq_refl). vm_compute in Habsent. discriminate.
Qed.

(** C3, amended. For every query, profile and context [analyze_and_respond]
    raises nothing, and returns [None] in exactly these cases: the
    classification exchange fails, the tool field of the parsed result is
    null, the tool field names no key of the fixed registry of 18 tools, or
    the strategy registered under it fails. On a registry hit whose strategy
    returns, the router returns the strategy's text unchanged. *)
Theorem analyze_and_respond_spec
  (chat_completion : request -> result string)
  (json_loads : string -> result json)
  (tool_prompt : string -> dict json -> string)
  (strategy_prompt : string -> string -> dict json -> string)
  (query : string) (p : dict json) (context : string) :
  let route := analyze_and_respond chat_completion json_loads tool_prompt strategy_prompt in
  let registry := tools chat_completion strategy_prompt in
  length registry = 18 /\
  NoDup (map fst registry) /\
  (route query p context = None <->
   classification_fails chat_completion json_loads tool_prompt query p \/
   tool_is_null chat_completion json_loads tool_prompt query p \/
   tool_not_registered chat_completion json_loads tool_prompt strategy_prompt query p \/
   strategy_fails chat_completion json_loads tool_prompt strategy_prompt query p context) /\
  (forall s run text,
     tool_name_of chat_completion json_loads tool_prompt query p = Ok (JStr s) ->
     dict_get registry s = Some run ->
     run query p context = Ok text ->
     route query p context = Some text).
Proof.
  intros route registry.
  split; [apply registry_size|]. split; [apply registry_size|].
  assert (Hhit : forall s run text,
            tool_name_of chat_completion json_loads tool_prompt query p = Ok (JStr s) ->
            dict_get registry s = Some run ->
            run query p context = Ok text ->
            route query p context = Some text).
  { intros s run text Ht Hr Hrun. subst route registry.
    rewrite (route_dispatch _ _ _ _ _ _ _ s run Ht Hr), Hrun. reflexivity. }
  split; [|exact Hhit].
  split.
  - intros Hnone.
    destruct (tool_name_of chat_completion json_loads tool_prompt query p)
      as [j|e] eqn:Ht; [|left; exists e; exact Ht].
    right.
    destruct j as [|b|z|s|l|d];
      [left; exact Ht
      |right; left; eexists; split; [exact Ht|discriminate]
      |right; left; eexists; split; [exact Ht|discriminate]
      |
      |right; left; eexists; split; [exact Ht|discriminate]
      |right; left; eexists; split; [exact Ht|discriminate]].
    right. destruct (dict_get registry s) as [run|] eqn:Hr.
    + right. destruct (run query p context) as [text|e] eqn:Hrun.
      * rewrite (Hhit s run text eq_refl Hr Hrun) in Hnone. discriminate.
      * exists s, run, e. auto.
    + left. exists (JStr s). split; [exact Ht|].
      intros s' Hs. injection Hs as <-. exact Hr.
  - intros [[e He] | [Hnull | [(j & Hj & Habsent) | (s & run & e & Ht & Hr & Hrun)]]].
    + subst route. unfold analyze_and_respond, analyze_and_respond_body.
      now rewrite He.
    + subst route. unfold analyze_and_respond, analyze_and_respond_body.
      unfold tool_is_null in Hnull. now rewrite Hnull.
    + subst route registry.
      exact (route_miss _ _ _ _ _ _ _ j Hj Habsent).
    + subst route registry.
      rewrite (route_dispatch _ _ _ _ _ _ _ s run Ht Hr), Hrun. reflexivity.
Qed.

(** A classification that names "math_solver" and a hosted model that
    answers: the reply comes back behind the solver's header. *)
Lemma analyze_and_respond_spec_witness :
  let tool_prompt := fun (query : string) (_ : dict json) => query in
  let strategy_prompt := fun (_ query : string) (_ : dict json) => query in
  analyze_and_respond always_answers loads_math_solver tool_prompt strategy_prompt
    "Solve 2x + 3 = 7" sample_profile ""
  = Some ("🔢 **Math Problem Solver**" ++ newline ++ newline ++ "x = 2")%string.
Proof.
  intros tool_prompt strategy_prompt.
  apply (proj2 (proj2 (proj2
           (analyze_and_respond_spec always_answers loads_math_solver tool_prompt
              strategy_prompt "Solve 2x + 3 = 7" sample_profile "")))
         "math_solver" (_solve_math_problem always_answers strategy_prompt)).
  - reflexivity.
  - reflexivity.
  - reflexivity.
Defined.

(** * Further properties *)

(** ** Substring tests *)

Lemma append_assoc (a b c : string) : ((a ++ b) ++ c = a ++ (b ++ c))%string.
Proof. induction a as [|x a IH]; simpl; [reflexivity|now rewrite IH]. Qed.

Lemma append_nil_r (a : string) : (a ++ "" = a)%string.
Proof. induction a as [|x a IH]; simpl; [reflexivity|now rewrite IH]. Qed.

Lemma prefix_append a b : prefix a (a ++ b) = true.
Proof.
  induction a as [|x a IH]; simpl; [now destruct b|].
  destruct (ascii_dec x x); [exact IH|congruence].
Qed.

Lemma prefix_split a : forall t, prefix a t = true -> exists post, t = (a ++ post)%string.
Proof.
  induction a as [|x a IH]; intros t H.
  - exists t. reflexivity.
  - destruct t as [|y t]; simpl in H; [discriminate|].
    destruct (ascii_dec x y) as [->|]; [|discriminate].
    destruct (IH t H) as [post ->]. exists post. reflexivity.
Qed.

Lemma contains_empty t : contains "" t = true.
Proof. destruct t; reflexivity. Qed.

(** [needle in hay] holds exactly when [hay] is some text, the needle, and
    some more text. *)
Lemma contains_iff needle hay :
  contains needle hay = true <->
  exists pre post, hay = (pre ++ needle ++ post)%string.
Proof.
  split.
  - induction hay as [|c hay IH]; intros H.
    + cbn [contains] in H. destruct (prefix_split _ _ H) as [post Hp].
      exists "", post. exact Hp.
    + cbn [contains] in H. apply orb_true_iff in H. destruct H as [H|H].
      * destruct (prefix_split _ _ H) as [post Hp]. exists "", post. exact Hp.
      * destruct (IH H) as (pre & post & ->). exists (String c pre), post. reflexivity.
  - intros (pre & post & ->).
    induction pre as [|c pre IH].
    + cbn [append]. destruct needle as [|x needle]; [apply contains_empty|].
      cbn [append contains]. apply orb_true_iff. left.
      apply (prefix_append (String x needle) post).
    + cbn [append contains]. rewrite IH. apply orb_true_r.
Qed.

Lemma contains_trans a b t :
  contains a b = true -> contains b t = true -> contains a t = true.
Proof.
  intros Hab Hbt.
  apply contains_iff in Hab. destruct Hab as (p1 & q1 & ->).
  apply contains_iff in Hbt. destruct Hbt as (p2 & q2 & ->).
  apply contains_iff. exists (p2 ++ p1)%string, (q1 ++ q2)%string.
  now rewrite !append_assoc.
Qed.

Lemma contains_concat a x sep parts :
  contains a x = true -> In x parts -> contains a (String.concat sep parts) = true.
Proof.
  intros Ha Hin.
  assert (contains x (String.concat sep parts) = true) as Hx.
  { apply contains_iff.
    induction parts as [|y parts IH]; [contradiction|].
    destruct Hin as [->|Hin].
    - destruct parts as [|z parts].
      + exists "", "". cbn. now rewrite append_nil_r.
      + exists "", (sep ++ String.concat sep (z :: parts))%string. reflexivity.
    - destruct parts as [|z parts]; [contradiction|].
      destruct (IH Hin) as (pre & post & Heq).
      exists (y ++ sep ++ pre)%string, post.
      change (String.concat sep (y :: z :: parts))
        with (y ++ sep ++ String.concat sep (z :: parts))%string.
      rewrite Heq. now rewrite !append_assoc. }
  exact (contains_trans _ _ _ Ha Hx).
Qed.


(** ** More on the annotators *)



Lemma all_keywords_distinct : NoDup all_keywords.
Proof.
  assert (nodup string_dec all_keywords = all_keywords) as <- by (vm_compute; reflexivity).
  apply NoDup_nodup.
Qed.

Lemma extract_topics_filter q :
  _extract_topics q
  = firstn 3 (filter (fun keyword => contains keyword (lower q)) all_keywords).
Proof. unfold _extract_topics. now rewrite collect_matches. Qed.

(** X2. The topics of a query are distinct keywords that do occur in the
    lowercased query; and when fewer than three are reported, every keyword
    of the vocabulary that occurs in the query is among them. *)
Theorem extract_topics_sound_complete (query : string) :
  NoDup (_extract_topics query) /\
  (forall topic, In topic (_extract_topics query) ->
     contains topic (lower query) = true) /\
  (length (_extract_topics query) < 3 ->
   forall keyword, In keyword all_keywords ->
     contains keyword (lower query) = true -> In keyword (_extract_topics query)).
Proof.
  rewrite extract_topics_filter.
  set (found := filter (fun keyword => contains keyword (lower query)) all_keywords).
  assert (forall t, In t (firstn 3 found) -> In t found) as Hsub.
  { intros t Ht. rewrite <- (firstn_skipn 3 found). apply in_or_app. now left. }
  split; [|split].
  - apply (NoDup_app_remove_r _ (skipn 3 found)). rewrite firstn_skipn.
    apply NoDup_filter, all_keywords_distinct.
  - intros topic Hin. apply Hsub in Hin. apply filter_In in Hin. tauto.
  - intros Hlen keyword Hin Hc.
    rewrite length_firstn in Hlen.
    rewrite firstn_all2 by lia. apply filter_In. tauto.
Qed.

(** A query in which "algebra" and "poem" occur and nothing else does. *)
Lemma extract_topics_sound_complete_witness :
  In "poem" (_extract_topics "A poem about algebra").
Proof.
  apply (proj2 (proj2 (extract_topics_sound_complete "A poem about algebra"))).
  - vm_compute. lia.
  - vm_compute. tauto.
  - vm_compute. reflexivity.
Defined.

Lemma identify_subject_label q :
  In (_identify_subject q) ("General" :: map fst subject_keywords).
Proof.
  pose proof (identify_subject_cases q) as Hcases. cbv beta zeta in Hcases.
  destruct Hcases as [[_ ->] | (earlier & winner & later & Hsplit & -> & _)].
  - left. reflexivity.
  - right. apply in_map. rewrite Hsplit. apply in_or_app. right. left. reflexivity.
Qed.

Lemma identify_subject_truthy q : truthy (_identify_subject q) = true.
Proof.
  pose proof (identify_subject_label q) as H. cbn [map fst subject_keywords] in H.
  repeat (destruct H as [<-|H]; [reflexivity|]). contradiction.
Qed.

(** The split of the subject list around a subject is unique. *)
Lemma split_by_name {V : Type} (l : dict V) : forall a x b a' x' b',
  NoDup (map fst l) ->
  l = a ++ x :: b -> l = a' ++ x' :: b' -> fst x = fst x' ->
  a = a' /\ x = x' /\ b = b'.
Proof.
  induction l as [|e l IH]; intros a x b a' x' b' Hnd H1 H2 Hname.
  - destruct a; discriminate.
  - cbn [map] in Hnd. apply NoDup_cons_iff in Hnd. destruct Hnd as [Hnotin Hnd].
    destruct a as [|y a]; destruct a' as [|y' a']; cbn [app] in H1, H2;
      injection H1 as He Hl; injection H2 as He' Hl'.
    + subst. repeat split; congruence.
    + exfalso. apply Hnotin. rewrite He, Hname, Hl'.
      rewrite map_app. apply in_or_app. right. left. reflexivity.
    + exfalso. apply Hnotin. rewrite He', <- Hname, Hl.
      rewrite map_app. apply in_or_app. right. left. reflexivity.
    + destruct (IH a x b a' x' b' Hnd Hl Hl' Hname) as (-> & -> & ->).
      repeat split; congruence.
Qed.

(** When a subject is the answer, it has more hits than every subject
    listed before it. *)
Lemma identify_subject_beats_earlier q earlier entry later :
  subject_keywords = earlier ++ entry :: later ->
  _identify_subject q = fst entry ->
  0 < sum_hits (snd entry) (lower q) /\
  Forall (fun e => sum_hits (snd e) (lower q) < sum_hits (snd entry) (lower q)) earlier.
Proof.
  intros Hsplit Hres.
  pose proof (identify_subject_cases q) as Hcases. cbv beta zeta in Hcases.
  destruct Hcases as [[_ Hgen] | (earlier' & winner & later' & Hsplit' & Hres' & Hpos & Hpre & _)].
  - exfalso. apply (general_is_no_subject entry).
    + rewrite Hsplit. apply in_or_app. right. left. reflexivity.
    + congruence.
  - destruct (split_by_name subject_keywords earlier entry later earlier' winner later'
                subject_names_distinct Hsplit Hsplit') as (-> & -> & _); [congruence|].
    split; assumption.
Qed.

(** X3. Matching is by substring, so a query in which "revolution" occurs
    also scores the Biology keyword "evolution". Biology comes before History
    in the subject list: such a query is labelled "History" only with at
    least two History keywords, and is labelled "Biology" when no further
    subject keyword occurs in it. *)
Theorem revolution_scores_biology (query : string) :
  contains "revolution" (lower query) = true ->
  contains "evolution" (lower query) = true /\
  (_identify_subject query = "History" ->
   2 <= sum_hits ["history"; "war"; "empire"; "revolution"; "ancient"; "medieval"; "timeline"]
          (lower query)) /\
  ((forall entry kw, In entry subject_keywords -> In kw (snd entry) ->
      kw <> "revolution" -> kw <> "evolution" -> contains kw (lower query) = false) ->
   _identify_subject query = "Biology").
Proof.
  intros Hrev.
  assert (contains "evolution" (lower query) = true) as Hevo
    by (apply (contains_trans _ "revolution"); [reflexivity|exact Hrev]).
  assert (0 < sum_hits ["biology"; "cell"; "DNA"; "evolution"; "organism"; "genetics"; "anatomy"]
                (lower query)) as Hbio
    by (apply (sum_hits_pos _ _ "evolution"); [simpl; tauto|exact Hevo]).
  assert (Hhist : _identify_subject query = "History" ->
            sum_hits ["biology"; "cell"; "DNA"; "evolution"; "organism"; "genetics"; "anatomy"]
              (lower query)
            < sum_hits ["history"; "war"; "empire"; "revolution"; "ancient"; "medieval"; "timeline"]
                (lower query)).
  { intros Hh.
    destruct (identify_subject_beats_earlier query
                (firstn 6 subject_keywords)
                ("History", ["history"; "war"; "empire"; "revolution"; "ancient"; "medieval"; "timeline"])
                (skipn 7 subject_keywords) eq_refl Hh) as [_ Hpre].
    rewrite Forall_forall in Hpre.
    apply (Hpre ("Biology", ["biology"; "cell"; "DNA"; "evolution"; "organism"; "genetics"; "anatomy"])).
    simpl. tauto. }
  split; [exact Hevo|]. split; [intros Hh; specialize (Hhist Hh); lia|].
  intros Honly.
  assert (Hzero : forall entry, In entry subject_keywords ->
            ~ In "revolution" (snd entry) -> ~ In "evolution" (snd entry) ->
            sum_hits (snd entry) (lower query) = 0).
  { intros entry Hin Hr He. apply sum_hits_zero. intros kw Hkw.
    apply (Honly entry kw Hin Hkw); intros ->; tauto. }
  pose proof (identify_subject_label query) as Hlabel.
  pose proof (identify_subject_cases query) as Hcases. cbv beta zeta in Hcases.
  destruct Hcases as [[Hnone _] | (earlier & winner & later & Hsplit & Hres & Hpos & _)].
  - pose proof (Hnone ("Biology", ["biology"; "cell"; "DNA"; "evolution"; "organism"; "genetics"; "anatomy"])) as Hz.
    cbn [snd] in Hz. rewrite Hz in Hbio by (simpl; tauto). lia.
  - assert (In winner subject_keywords) as Hin
      by (rewrite Hsplit; apply in_or_app; right; left; reflexivity).
    cbn [subject_keywords In] in Hin.
    destruct Hin as [<-|[<-|[<-|[<-|[<-|[<-|[<-|[<-|[<-|[<-|[]]]]]]]]]]];
      try exact Hres;
      try (rewrite Hzero in Hpos;
           [lia|simpl; tauto|simpl; intuition discriminate|simpl; intuition discriminate]).
    specialize (Hhist Hres).
    assert (sum_hits ["history"; "war"; "empire"; "revolution"; "ancient"; "medieval"; "timeline"]
              (lower query) <= 1) as Hle.
    { assert (Hf : forall kw,
                In kw ["history"; "war"; "empire"; "ancient"; "medieval"; "timeline"] ->
                contains kw (lower query) = false).
      { intros kw Hkw.
        apply (Honly ("History", ["history"; "war"; "empire"; "revolution"; "ancient"; "medieval"; "timeline"]) kw).
        - simpl. tauto.
        - simpl in *. tauto.
        - simpl in Hkw. intuition (subst; discriminate).
        - simpl in Hkw. intuition (subst; discriminate). }
      rewrite sum_hits_length. cbn [filter].
      rewrite (Hf "history"), (Hf "war"), (Hf "empire"), (Hf "ancient"),
        (Hf "medieval"), (Hf "timeline") by (simpl; tauto).
      destruct (contains "revolution" (lower query)); cbn; lia. }
    lia.
Qed.

(** "What caused the French Revolution?" mentions no subject keyword but
    "revolution", and with it "evolution". *)
Lemma revolution_scores_biology_witness :
  _identify_subject "What caused the French Revolution?" = "Biology".
Proof.
  refine (proj2 (proj2 (revolution_scores_biology
                          "What caused the French Revolution?" _)) _).
  - vm_compute. reflexivity.
  - intros entry kw Hentry. simpl in Hentry.
    repeat (destruct Hentry as [<-|Hentry];
            [simpl; intros Hkw;
             repeat (destruct Hkw as [<-|Hkw];
                     [intros Hr He; try reflexivity;
                      exfalso; (apply Hr; reflexivity) || (apply He; reflexivity)|]);
             contradiction|]).
    contradiction.
Defined.

(** ** Invariants of a session *)

Lemma map_last_n {A B : Type} (f : A -> B) n (l : list A) :
  map f (last_n n l) = last_n n (map f l).
Proof. unfold last_n. now rewrite length_map, skipn_map. Qed.

(** [_update_learning_patterns] writes the learning patterns and nothing
    else. *)
Lemma update_learning_patterns_frame i m :
  exec (_update_learning_patterns i) m
  = with_patterns (patterns (exec (_update_learning_patterns i) m)) m.
Proof.
  unfold exec, _update_learning_patterns, try_pass. cbn [fst].
  unfold _update_learning_patterns_body, bind, lift, modify, gets, ret.
  destruct m as [ints p sf dt ls].
  destruct (on_str _classify_question_type (user_query i)); [|reflexivity].
  cbn [with_patterns patterns interactions difficulty_history or_empty
       subject_focus difficulty_tracking last_session].
  destruct (3 <=? _); [|reflexivity].
  destruct (difficulty_scores _); reflexivity.
Qed.

Lemma add_interaction_text_frame now q r m :
  exec (add_interaction now (VStr q) r) m
  = mk_memory
      (last_n max_interactions (interactions m ++ [annotate now q r]))
      (patterns (exec (add_interaction now (VStr q) r) m))
      (subject_focus m) (difficulty_tracking m) (last_session m).
Proof.
  rewrite add_interaction_exec_text at 1.
  rewrite update_learning_patterns_frame.
  rewrite <- add_interaction_exec_text. reflexivity.
Qed.

Lemma estimate_difficulty_label q :
  In (_estimate_difficulty q) ["beginner"; "intermediate"; "advanced"].
Proof.
  unfold _estimate_difficulty.
  destruct (_ <? _); [simpl; tauto|]. destruct (_ <? _); simpl; tauto.
Qed.

(** The log of a session: at most 50 entries, each with the labels of its
    own text query; the three unused keys stay as created. *)
Lemma reachable_entries m :
  reachable m ->
  length (interactions m) <= 50 /\
  Forall well_annotated (interactions m) /\
  subject_focus m = [] /\ difficulty_tracking m = [] /\ last_session m = None.
Proof.
  induction 1 as [|now q r m Hm IH|m Hm IH].
  - cbn. split; [lia|]. split; [constructor|]. repeat split.
  - destruct q as [|s|b|z];
      try (rewrite add_interaction_exec_not_text by discriminate; exact IH).
    destruct IH as (Hlen & Hwell & Hsf & Hdt & Hls).
    rewrite add_interaction_text_frame.
    cbn [interactions subject_focus difficulty_tracking last_session].
    split; [rewrite length_last_n; apply Nat.le_min_l|].
    split; [|tauto].
    apply Forall_last_n, Forall_app. split; [exact Hwell|].
    constructor; [|constructor].
    exists s. repeat split; reflexivity.
  - cbn. split; [lia|]. split; [constructor|]. repeat split.
Qed.

(** X4. In a session (any interleaving of [add_interaction], with any
    values for query and response, and [clear_memory]) the log holds at most
    50 entries; every entry stems from a text query and carries the labels
    the annotators give that query: at most three topics, one of the three
    difficulty labels, and one of the ten subjects or "General". The keys
    [subject_focus], [difficulty_tracking] and [last_session] are never
    written. *)
Theorem session_entries_well_annotated (m : memory) :
  reachable m ->
  length (interactions m) <= 50 /\
  Forall well_annotated (interactions m) /\
  Forall (fun i =>
            length (topics i) <= 3 /\
            In (difficulty i) ["beginner"; "intermediate"; "advanced"] /\
            In (subject i) ("General" :: map fst subject_keywords))
    (interactions m) /\
  subject_focus m = [] /\ difficulty_tracking m = [] /\ last_session m = None.
Proof.
  intros Hm.
  destruct (reachable_entries m Hm) as (Hlen & Hwell & Hrest).
  split; [exact Hlen|]. split; [exact Hwell|]. split; [|exact Hrest].
  eapply Forall_impl; [|exact Hwell].
  intros i (q & _ & -> & -> & ->). split; [|split].
  - rewrite extract_topics_filter. apply firstn_le_length.
  - apply estimate_difficulty_label.
  - apply identify_subject_label.
Qed.

(** Sixty calls, every third of them with [None] for a query. *)
Lemma session_entries_well_annotated_witness :
  let calls :=
    map (fun n => (Z.of_nat n,
                   if n mod 3 =? 0 then VNone else VStr "Explain the cell cycle",
                   VStr "An answer."))
      (seq 1 60) in
  length (interactions (add_all calls empty_memory)) <= 50 /\
  Forall well_annotated (interactions (add_all calls empty_memory)).
Proof.
  intros calls.
  assert (reachable (add_all calls empty_memory)) as Hr.
  { unfold calls, add_all. cbn [seq map fold_left fst snd].
    repeat apply reach_add. apply reach_init. }
  split.
  - exact (proj1 (session_entries_well_annotated _ Hr)).
  - exact (proj1 (proj2 (session_entries_well_annotated _ Hr))).
Defined.

Lemma patterns_of_types entries :
  or_empty (preferred_question_types (patterns_of entries))
  = map question_type_of (last_n 10 entries).
Proof. destruct entries; reflexivity. Qed.

Lemma patterns_of_history entries :
  or_empty (difficulty_history (patterns_of entries))
  = last_n 10 (map difficulty entries).
Proof. destruct entries; reflexivity. Qed.

Lemma patterns_of_trend entries :
  difficulty_trend (patterns_of entries)
  = if 3 <=? length entries
    then Some (trend_between
                 (nth (length (map difficulty entries) - 3) (map difficulty entries) "")
                 (last (map difficulty entries) ""))
    else None.
Proof. destruct entries; reflexivity. Qed.

Lemma trend_of_three a b c :
  trend_of_scores (map rank [a; b; c]) = trend_between a c.
Proof. reflexivity. Qed.

Lemma patterns_of_nonempty entries :
  entries <> [] ->
  patterns_of entries
  = mk_patterns
      (Some (map question_type_of (last_n 10 entries)))
      (Some (last_n 10 (map difficulty entries)))
      (if 3 <=? length entries
       then Some (trend_between
                    (nth (length (map difficulty entries) - 3) (map difficulty entries) "")
                    (last (map difficulty entries) ""))
       else None).
Proof. destruct entries; [contradiction|reflexivity]. Qed.

(** One recorded text query moves the patterns of a log to the patterns of
    the log with the new entry. *)
Lemma patterns_step now q r m :
  reachable m ->
  patterns m = patterns_of (interactions m) ->
  patterns (exec (add_interaction now (VStr q) r) m)
  = patterns_of (last_n max_interactions (interactions m ++ [annotate now q r])).
Proof.
  intros Hm Hp.
  pose proof (reachable_history_known _ (reach_add now (VStr q) r m Hm)) as Hknown.
  rewrite patterns_add_text in Hknown. cbn zeta in Hknown.
  cbn [difficulty_history or_empty] in Hknown.
  rewrite patterns_add_text. cbn zeta.
  rewrite Hp in Hknown. rewrite Hp.
  rewrite patterns_of_history in Hknown.
  rewrite patterns_of_types, patterns_of_history, patterns_of_trend.
  set (i := annotate now q r).
  set (entries := last_n max_interactions (interactions m ++ [i])).
  assert (Htail : last_n 10 entries = last_n 10 (interactions m ++ [i]))
    by (apply last_n_last_n; unfold max_interactions; lia).
  assert (Htypes :
            last_n 10 (map question_type_of (last_n 10 (interactions m))
                       ++ [_classify_question_type q])
            = map question_type_of (last_n 10 entries)).
  { rewrite Htail, !map_last_n, map_app, last_n_app_last_n. reflexivity. }
  assert (Hhist :
            last_n 10 (last_n 10 (map difficulty (interactions m))
                       ++ [_estimate_difficulty q])
            = last_n 10 (map difficulty entries)).
  { rewrite <- (map_last_n difficulty 10 entries), Htail, map_last_n, map_app,
      last_n_app_last_n. reflexivity. }
  rewrite Hhist in Hknown. rewrite Htypes, Hhist.
  assert (Hlen : length entries = Nat.min 50 (length (interactions m) + 1)).
  { unfold entries. rewrite length_last_n, length_app. reflexivity. }
  rewrite patterns_of_nonempty
    by (intros E; apply (f_equal (@length interaction)) in E; cbn [length] in E; lia).
  f_equal.
  rewrite length_last_n, length_map.
  destruct (3 <=? length entries) eqn:E.
  - apply Nat.leb_le in E.
    replace (3 <=? Nat.min 10 (length entries)) with true
      by (symmetry; apply Nat.leb_le; lia).
    destruct (last_n_three (map difficulty entries) "") as [b Hb];
      [now rewrite length_map|].
    rewrite last_n_last_n by lia.
    rewrite difficulty_scores_known.
    + rewrite Hb, length_map. reflexivity.
    + rewrite <- (last_n_last_n 3 10) by lia. apply Forall_last_n. exact Hknown.
  - apply Nat.leb_gt in E.
    replace (3 <=? Nat.min 10 (length entries)) with false
      by (symmetry; apply Nat.leb_gt; lia).
    replace (3 <=? length (interactions m)) with false
      by (symmetry; apply Nat.leb_gt; lia).
    reflexivity.
Qed.

Lemma reachable_patterns m :
  reachable m -> patterns m = patterns_of (interactions m).
Proof.
  induction 1 as [|now q r m Hm IH|m Hm IH]; [reflexivity| |reflexivity].
  destruct q as [|s|b|z];
    try (rewrite add_interaction_exec_not_text by discriminate; exact IH).
  rewrite (patterns_step now s r m Hm IH).
  rewrite add_interaction_text_frame. reflexivity.
Qed.

(** X5. In a session the learning patterns are a function of the stored
    entries: the question types and the difficulties are those of the last
    ten entries, so both lists have the same length, at most ten; the trend
    is unset exactly while fewer than three entries are stored, and
    otherwise compares the difficulty of the third-last entry with that of
    the last. *)
Theorem patterns_follow_interactions (m : memory) :
  reachable m ->
  patterns m = patterns_of (interactions m) /\
  length (or_empty (preferred_question_types (patterns m)))
    = Nat.min 10 (length (interactions m)) /\
  length (or_empty (difficulty_history (patterns m)))
    = Nat.min 10 (length (interactions m)) /\
  (difficulty_trend (patterns m) = None <-> length (interactions m) < 3).
Proof.
  intros Hm.
  pose proof (reachable_patterns m Hm) as Hp.
  split; [exact Hp|]. rewrite Hp.
  rewrite patterns_of_types, patterns_of_history, patterns_of_trend.
  rewrite length_map, !length_last_n, length_map.
  repeat split; try reflexivity.
  - destruct (3 <=? length (interactions m)) eqn:E; [discriminate|].
    intros _. now apply Nat.leb_gt.
  - intros Hlt. apply Nat.leb_gt in Hlt. now rewrite Hlt.
Qed.

(** Twelve questions, a cleared memory, then two more. *)
Lemma patterns_follow_interactions_witness :
  let m := add_all [(13%Z, VStr "What is a cell?", VStr "a");
                    (14%Z, VStr "Analyze the theorem", VStr "b")]
             (exec clear_memory
                (add_all (map (fun n => (Z.of_nat n, VStr "Solve the equation", VStr "x"))
                            (seq 1 12)) empty_memory)) in
  patterns m = patterns_of (interactions m) /\
  difficulty_trend (patterns m) = None.
Proof.
  intros m.
  assert (reachable m) as Hr.
  { unfold m, add_all. cbn [seq map fold_left fst snd].
    repeat apply reach_add. apply reach_clear.
    repeat apply reach_add. apply reach_init. }
  split.
  - exact (proj1 (patterns_follow_interactions m Hr)).
  - apply (proj2 (proj2 (proj2 (patterns_follow_interactions m Hr)))).
    vm_compute. lia.
Defined.

(** ** Frequency counts *)

Lemma dict_get_set_same {V : Type} (d : dict V) k v :
  dict_get (dict_set d k v) k = Some v.
Proof.
  induction d as [|[k' v'] d IH]; cbn [dict_set dict_get].
  - now rewrite String.eqb_refl.
  - destruct (String.eqb k' k) eqn:E; cbn [dict_get]; rewrite E; [reflexivity|exact IH].
Qed.

Lemma dict_get_set_other {V : Type} (d : dict V) k v k' :
  k <> k' -> dict_get (dict_set d k v) k' = dict_get d k'.
Proof.
  intros Hne. induction d as [|[k0 v0] d IH]; cbn [dict_set dict_get].
  - apply String.eqb_neq in Hne. now rewrite Hne.
  - destruct (String.eqb k0 k) eqn:E; cbn [dict_get].
    + apply String.eqb_eq in E. subst k0.
      apply String.eqb_neq in Hne. now rewrite Hne.
    + now rewrite IH.
Qed.

Lemma dict_set_keys {V : Type} (d : dict V) k v k' :
  In k' (map fst (dict_set d k v)) <-> k' = k \/ In k' (map fst d).
Proof.
  induction d as [|[k0 v0] d IH]; cbn [dict_set map fst In].
  - intuition.
  - destruct (String.eqb k0 k) eqn:E; cbn [map fst In].
    + apply String.eqb_eq in E. subst k0. intuition.
    + rewrite IH. intuition.
Qed.

Lemma dict_set_keys_distinct {V : Type} (d : dict V) k v :
  NoDup (map fst d) -> NoDup (map fst (dict_set d k v)).
Proof.
  induction d as [|[k0 v0] d IH]; cbn [dict_set map fst]; intros Hnd.
  - constructor; [intros []|constructor].
  - apply NoDup_cons_iff in Hnd. destruct Hnd as [Hnotin Hnd].
    destruct (String.eqb k0 k) eqn:E; cbn [map fst].
    + constructor; assumption.
    + constructor; [|apply IH; exact Hnd].
      rewrite dict_set_keys. intros [->|Hin]; [|contradiction].
      now rewrite String.eqb_refl in E.
Qed.

Lemma count_up_total (d : dict nat) k :
  list_sum (map snd (count_up d k)) = list_sum (map snd d) + 1.
Proof.
  unfold count_up, list_sum.
  induction d as [|[k0 v0] d IH]; cbn [dict_set dict_get].
  - cbn. lia.
  - destruct (String.eqb k0 k) eqn:E; cbn [map snd fold_right]; [lia|].
    rewrite IH. lia.
Qed.

Lemma count_up_all l : forall (d : dict nat) s,
  dict_get (fold_left count_up l d) s
  = match dict_get d s, count_occ string_dec l s with
    | None, 0 => None
    | None, S c => Some (S c)
    | Some n, c => Some (n + c)
    end.
Proof.
  induction l as [|x l IH]; intros d s; cbn [fold_left count_occ].
  - destruct (dict_get d s); [f_equal; lia|reflexivity].
  - rewrite IH. unfold count_up.
    destruct (string_dec x s) as [->|Hne].
    + rewrite dict_get_set_same.
      destruct (dict_get d s); f_equal; lia.
    + rewrite dict_get_set_other by exact Hne. reflexivity.
Qed.

Lemma count_up_all_keys l : forall d : dict nat,
  NoDup (map fst d) -> NoDup (map fst (fold_left count_up l d)).
Proof.
  induction l as [|x l IH]; intros d Hnd; cbn [fold_left]; [exact Hnd|].
  apply IH. apply dict_set_keys_distinct. exact Hnd.
Qed.

Lemma count_up_all_total l : forall d : dict nat,
  list_sum (map snd (fold_left count_up l d)) = list_sum (map snd d) + length l.
Proof.
  induction l as [|x l IH]; intros d; cbn [fold_left length]; [lia|].
  rewrite IH, count_up_total. lia.
Qed.

(** X6. [get_subject_statistics] maps each subject to the number of stored
    entries with that subject and has no key for a subject that no entry
    has; its keys are distinct and its counts add up to the number of
    stored entries. *)
Theorem subject_statistics_counts (m : memory) (s : string) :
  dict_get (get_subject_statistics m) s
  = (let n := count_occ string_dec (map subject (interactions m)) s in
     if n =? 0 then None else Some n) /\
  NoDup (map fst (get_subject_statistics m)) /\
  list_sum (map snd (get_subject_statistics m)) = length (interactions m).
Proof.
  unfold get_subject_statistics, frequencies. split; [|split].
  - rewrite count_up_all. cbn [dict_get].
    destruct (count_occ string_dec (map subject (interactions m)) s); reflexivity.
  - apply count_up_all_keys. constructor.
  - rewrite count_up_all_total, length_map. reflexivity.
Qed.

Lemma dict_get_in {V : Type} (d : dict V) k v :
  NoDup (map fst d) -> In (k, v) d -> dict_get d k = Some v.
Proof.
  induction d as [|[k0 v0] d IH]; cbn [map fst dict_get]; intros Hnd Hin; [contradiction|].
  apply NoDup_cons_iff in Hnd. destruct Hnd as [Hnotin Hnd].
  destruct Hin as [Heq|Hin].
  - injection Heq as -> ->. now rewrite String.eqb_refl.
  - destruct (String.eqb k0 k) eqn:E; [|apply IH; assumption].
    apply String.eqb_eq in E. subst k0.
    exfalso. apply Hnotin. change k with (fst (k, v)). apply in_map. exact Hin.
Qed.

Lemma dict_get_some_in {V : Type} (d : dict V) k v :
  dict_get d k = Some v -> In (k, v) d.
Proof.
  induction d as [|[k0 v0] d IH]; cbn [dict_get]; intros H; [discriminate|].
  destruct (String.eqb k0 k) eqn:E.
  - apply String.eqb_eq in E. injection H as ->. subst. left. reflexivity.
  - right. apply IH. exact H.
Qed.

Lemma frequencies_get l s :
  dict_get (frequencies l) s
  = match count_occ string_dec l s with 0 => None | S c => Some (S c) end.
Proof. unfold frequencies. rewrite count_up_all. reflexivity. Qed.

(** [max] over the frequency count of a non-empty list picks an element of
    the list that no other element outnumbers. *)
Lemma most_frequent l :
  l <> [] ->
  exists s,
    max_by snd (frequencies l) = Ok (s, count_occ string_dec l s) /\
    In s l /\
    forall s', count_occ string_dec l s' <= count_occ string_dec l s.
Proof.
  intros Hne.
  destruct (frequencies l) as [|f fr] eqn:Hf.
  { exfalso. destruct l as [|x l]; [congruence|].
    pose proof (frequencies_get (x :: l) x) as Hx. rewrite Hf in Hx.
    rewrite count_occ_cons_eq in Hx by reflexivity. discriminate. }
  cbn [max_by].
  destruct (max_from_split snd fr f) as (pre & post & Hsplit & Hpre & Hpost).
  set (w := max_from snd f fr) in *.
  assert (NoDup (map fst (f :: fr))) as Hnd
    by (rewrite <- Hf; apply count_up_all_keys; constructor).
  assert (In w (f :: fr)) as Hw
    by (rewrite Hsplit; apply in_or_app; right; left; reflexivity).
  assert (forall k v, In (k, v) (f :: fr) -> v = count_occ string_dec l k /\ 0 < v)
    as Hcount.
  { intros k v Hin. apply (dict_get_in _ _ _ Hnd) in Hin.
    rewrite <- Hf, frequencies_get in Hin.
    destruct (count_occ string_dec l k); [discriminate|].
    injection Hin as <-. split; [reflexivity|lia]. }
  destruct w as [s n] eqn:Ew.
  destruct (Hcount s n Hw) as [Hn Hpos].
  exists s. split; [now rewrite Hn|]. split.
  - apply (count_occ_In string_dec). lia.
  - intros s'. destruct (count_occ string_dec l s') as [|c] eqn:Ec; [lia|].
    assert (In (s', S c) (f :: fr)) as Hin.
    { apply dict_get_some_in. rewrite <- Hf, frequencies_get, Ec. reflexivity. }
    rewrite Hsplit in Hin. apply in_app_or in Hin.
    rewrite Forall_forall in Hpre, Hpost. cbn [snd] in Hpre, Hpost.
    destruct Hin as [Hin|[Hin|Hin]].
    + specialize (Hpre _ Hin). cbn [snd] in Hpre. lia.
    + injection Hin as _ Hin. lia.
    + specialize (Hpost _ Hin). cbn [snd] in Hpost. lia.
Qed.

Lemma contains_refl a : contains a a = true.
Proof. apply contains_iff. exists "", "". cbn. now rewrite append_nil_r. Qed.

Lemma contains_prefix a b : contains a (a ++ b) = true.
Proof. apply contains_iff. exists "", b. reflexivity. Qed.

Lemma subjects_truthy entries :
  Forall well_annotated entries ->
  filter (fun i => truthy (subject i)) entries = entries.
Proof.
  intros H. apply forallb_filter_id. apply forallb_forall.
  rewrite Forall_forall in H. intros i Hi.
  destruct (H i Hi) as (q & _ & _ & _ & ->). apply identify_subject_truthy.
Qed.

(** ** Read accessors in a session *)

Lemma trend_between_truthy a b : truthy (trend_between a b) = true.
Proof.
  unfold trend_between. destruct (_ <? _); [reflexivity|].
  destruct (_ <? _); reflexivity.
Qed.

Lemma last_n_nonempty {A : Type} n (l : list A) :
  0 < n -> l <> [] -> last_n n l <> [].
Proof.
  intros Hn Hl E. apply (f_equal (@length A)) in E.
  rewrite length_last_n in E. destruct l; [congruence|]. cbn [length] in E. lia.
Qed.

(** X7. In a session with at least one stored entry
    [get_learning_context] is the "; "-joined list of: the recent topics
    (when the last five entries have any), the primary subject, which is a
    subject of the last five entries that none of their subjects outnumbers,
    the question types of the last ten entries, and the difficulty trend
    (once set). It is therefore none of the three fixed sentences for the
    empty memory, the start of a session or a failed retrieval. *)
Theorem learning_context_in_session
  (list_of_set : list string -> list string) (m : memory) :
  reachable m ->
  interactions m <> [] ->
  exists s,
    In s (map subject (last_n 5 (interactions m))) /\
    (forall s',
       count_occ string_dec (map subject (last_n 5 (interactions m))) s'
       <= count_occ string_dec (map subject (last_n 5 (interactions m))) s) /\
    get_learning_context list_of_set m
    = String.concat "; "
        (match flat_map topics (last_n 5 (interactions m)) with
         | [] => []
         | t :: ts =>
             [("Recent topics: " ++ String.concat ", " (list_of_set (t :: ts)))%string]
         end
         ++ [("Primary subject focus: " ++ s)%string;
             ("Student prefers: "
              ++ String.concat ", " (map question_type_of (last_n 10 (interactions m))))%string]
         ++ match difficulty_trend (patterns m) with
            | Some trend => [("Difficulty progression: " ++ trend)%string]
            | None => []
            end) /\
    get_learning_context list_of_set m
      <> "No previous learning interactions in this session." /\
    get_learning_context list_of_set m <> "Beginning of learning session." /\
    get_learning_context list_of_set m <> "Unable to retrieve learning context.".
Proof.
  intros Hm Hne.
  destruct (reachable_entries m Hm) as (_ & Hwell & _).
  pose proof (reachable_patterns m Hm) as Hp.
  remember (last_n 5 (interactions m)) as recent eqn:Hrec.
  assert (recent <> []) as Hrecent by (subst recent; apply last_n_nonempty; [lia|exact Hne]).
  assert (Forall well_annotated recent) as Hwr by (subst recent; now apply Forall_last_n).
  destruct (most_frequent (map subject recent)) as (s & Hmax & Hin & Hle).
  { destruct recent; [congruence|discriminate]. }
  exists s. split; [exact Hin|]. split; [exact Hle|].
  match goal with |- ?eq /\ _ => assert eq as Heq end.
  { unfold get_learning_context, get_learning_context_body.
    rewrite <- Hrec.
    destruct recent as [|e rest]; [congruence|].
    cbv beta iota zeta.
    rewrite (subjects_truthy _ Hwr), Hmax.
    rewrite Hp, (patterns_of_nonempty _ Hne).
    cbn [preferred_question_types difficulty_trend map fst].
    destruct (map question_type_of (last_n 10 (interactions m))) as [|t ts] eqn:Hty.
    { exfalso. apply (f_equal (@length string)) in Hty.
      rewrite length_map, length_last_n in Hty.
      destruct (interactions m); [congruence|]. cbn [length] in Hty. lia. }
    destruct (3 <=? length (interactions m)).
    - rewrite trend_between_truthy.
      destruct (flat_map topics (e :: rest)); reflexivity.
    - destruct (flat_map topics (e :: rest)); reflexivity. }
  split; [exact Heq|].
  assert (contains "Primary subject focus: " (get_learning_context list_of_set m) = true)
    as Hc.
  { rewrite Heq.
    apply (contains_concat _ ("Primary subject focus: " ++ s)%string).
    - apply contains_prefix.
    - apply in_or_app. right. left. reflexivity. }
  repeat split; intros E; rewrite E in Hc; vm_compute in Hc; discriminate.
Qed.

(** One question about algebra on a fresh memory: the context names the
    topic and the subject. *)
Lemma learning_context_in_session_witness :
  let m := add_all [(1%Z, VStr "Help me with algebra", VStr "Sure.")] empty_memory in
  exists s,
    In s (map subject (last_n 5 (interactions m))) /\
    get_learning_context (nodup string_dec) m
    = String.concat "; "
        (["Recent topics: algebra"]
         ++ [("Primary subject focus: " ++ s)%string; "Student prefers: assistance"]
         ++ []).
Proof.
  intros m.
  assert (reachable m) as Hr by (apply reach_add, reach_init).
  assert (interactions m <> []) as Hne by (vm_compute; discriminate).
  destruct (learning_context_in_session (nodup string_dec) m Hr Hne)
    as (s & Hin & _ & Heq & _).
  exists s. split; [exact Hin|]. exact Heq.
Defined.

Lemma last_skipn {A : Type} (l : list A) : forall k d,
  k < length l -> last (skipn k l) d = last l d.
Proof.
  induction l as [|x l IH]; intros k d Hk; [cbn in Hk; lia|].
  destruct k as [|k]; [reflexivity|].
  cbn [skipn]. cbn [length] in Hk. rewrite IH by lia.
  destruct l; [cbn in Hk; lia|reflexivity].
Qed.

Lemma last_last_n {A : Type} n (l : list A) d :
  0 < n -> l <> [] -> last (last_n n l) d = last l d.
Proof.
  intros Hn Hl. unfold last_n. apply last_skipn.
  destruct l; [congruence|]. cbn [length]. lia.
Qed.

Lemma last_map_default {A B : Type} (f : A -> B) (l : list A) a d :
  l <> [] -> last (map f l) d = f (last l a).
Proof.
  intros Hl. destruct (exists_last Hl) as (l' & x & ->).
  rewrite map_app. cbn [map]. now rewrite !last_last.
Qed.

(** X8. In a session with at least one stored entry
    [get_interaction_summary] reports: the number of stored entries (at most
    50), the time from the oldest stored entry to the newest one, the number
    of distinct topics, a subject with the largest count in
    [get_subject_statistics], and the difficulty of the newest entry. The
    placeholders "Various" and "Not assessed" and the sentence for a failed
    summary do not occur. *)
Theorem interaction_summary_in_session
  (list_of_set : list string -> list string) (m : memory) (first : interaction)
  (rest : list interaction) :
  reachable m ->
  interactions m = first :: rest ->
  let newest := last (interactions m) first in
  exists s n,
    dict_get (get_subject_statistics m) s = Some n /\
    (forall s' n', dict_get (get_subject_statistics m) s' = Some n' -> n' <= n) /\
    length (interactions m) <= 50 /\
    get_interaction_summary list_of_set m
    = String.concat "; "
        [("Total interactions: " ++ str_of_Z (Z.of_nat (length (interactions m))))%string;
         ("Session duration: "
          ++ _format_duration (timestamp newest - timestamp first))%string;
         ("Topics explored: "
          ++ str_of_Z (Z.of_nat (length (list_of_set (flat_map topics (interactions m)))))
          ++ " unique topics")%string;
         ("Most discussed subject: " ++ s)%string;
         ("Recent difficulty level: " ++ difficulty newest)%string].
Proof.
  intros Hm Hints newest.
  destruct (reachable_entries m Hm) as (Hlen & Hwell & _).
  assert (interactions m <> []) as Hne by (rewrite Hints; discriminate).
  destruct (most_frequent (map subject (interactions m))) as (s & Hmax & Hin & Hle).
  { rewrite Hints. discriminate. }
  exists s, (count_occ string_dec (map subject (interactions m)) s).
  assert (Hstat : forall k,
            dict_get (get_subject_statistics m) k
            = match count_occ string_dec (map subject (interactions m)) k with
              | 0 => None
              | S c => Some (S c)
              end)
    by (intros k; apply frequencies_get).
  split; [|split; [|split; [exact Hlen|]]].
  - rewrite Hstat.
    pose proof (proj1 (count_occ_In string_dec _ _) Hin) as Hpos.
    destruct (count_occ string_dec (map subject (interactions m)) s); [lia|reflexivity].
  - intros s' n' Hs'. rewrite Hstat in Hs'. specialize (Hle s').
    destruct (count_occ string_dec (map subject (interactions m)) s');
      [discriminate|injection Hs' as <-; exact Hle].
  - unfold get_interaction_summary, get_interaction_summary_body.
    rewrite (subjects_truthy _ Hwell).
    assert (last (map difficulty (last_n 10 (interactions m))) "Not assessed"
            = difficulty newest) as Hdiff.
    { rewrite (last_map_default difficulty _ first) by (apply last_n_nonempty; [lia|exact Hne]).
      rewrite last_last_n by (lia || exact Hne). reflexivity. }
    assert ((if 1 <? length (interactions m)
             then (timestamp (last (interactions m) first) - timestamp first)%Z
             else 0%Z)
            = (timestamp newest - timestamp first)%Z) as Hdur.
    { destruct (1 <? length (interactions m)) eqn:E; [reflexivity|].
      apply Nat.ltb_ge in E. unfold newest. rewrite Hints in *.
      destruct rest; [cbn; lia|cbn [length] in E; lia]. }
    destruct (frequencies (map subject (interactions m))) as [|f fr] eqn:Hf;
      [discriminate Hmax|].
    rewrite Hints at 1. cbv beta iota zeta.
    rewrite Hmax, Hdiff, Hdur. reflexivity.
Qed.

(** Two questions two minutes and five seconds apart. *)
Lemma interaction_summary_in_session_witness :
  let m := add_all [(0%Z, VStr "Explain the cell", VNone);
                    (125000000%Z, VStr "Solve this integral equation", VNone)]
             empty_memory in
  exists s n,
    dict_get (get_subject_statistics m) s = Some n /\
    get_interaction_summary (nodup string_dec) m
    = String.concat "; "
        ["Total interactions: 2"; "Session duration: 2 minutes";
         "Topics explored: 3 unique topics";
         ("Most discussed subject: " ++ s)%string;
         "Recent difficulty level: advanced"].
Proof.
  intros m.
  assert (reachable m) as Hr by (repeat apply reach_add; apply reach_init).
  destruct (interaction_summary_in_session (nodup string_dec) m
              (annotate 0 "Explain the cell" VNone)
              [annotate 125000000 "Solve this integral equation" VNone]
              Hr eq_refl)
    as (s & n & Hs & _ & _ & Heq).
  exists s, n. split; [exact Hs|]. exact Heq.
Defined.



(** ** The registry and the router's replies *)

Lemma tools_entry_shape
  (chat_completion : request -> result string)
  (strategy_prompt : string -> string -> dict json -> string)
  (name : string) (run : string -> dict json -> string -> result string) :
  dict_get (tools chat_completion strategy_prompt) name = Some run ->
  exists header budget,
    (forall query p context,
       run query p context
       = match chat_completion
                 (mk_request "gpt-4o" (strategy_prompt name query p) false budget) with
         | Ok text => Ok (header ++ newline ++ newline ++ text)%string
         | Raise e => Raise e
         end) /\
    600 <= budget <= 800 /\
    truthy header = true.
Proof.
  intros H. unfold tools in H. cbn [dict_get] in H.
  repeat match type of H with
         | (if String.eqb ?k name then _ else _) = _ =>
             destruct (String.eqb k name) eqn:E;
             [apply String.eqb_eq in E; subst name; injection H as <-;
              eexists _, _; split; [intros; reflexivity|split; [lia|reflexivity]]
             |clear E]
         end.
  discriminate.
Qed.



Lemma route_reply_shape
  (chat_completion : request -> result string)
  (json_loads : string -> result json)
  (tool_prompt : string -> dict json -> string)
  (strategy_prompt : string -> string -> dict json -> string)
  (query : string) (p : dict json) (context text : string) :
  analyze_and_respond chat_completion json_loads tool_prompt strategy_prompt
    query p context = Some text ->
  exists name header budget reply,
    tool_name_of chat_completion json_loads tool_prompt query p = Ok (JStr name) /\
    In name (map fst (tools chat_completion strategy_prompt)) /\
    600 <= budget <= 800 /\
    chat_completion (mk_request "gpt-4o" (strategy_prompt name query p) false budget)
    = Ok reply /\
    text = (header ++ newline ++ newline ++ reply)%string /\
    truthy text = true.
Proof.
  intros Hsome.
  destruct (tool_name_of chat_completion json_loads tool_prompt query p) as [j|e] eqn:Ht.
  2:{ unfold analyze_and_respond, analyze_and_respond_body in Hsome.
      rewrite Ht in Hsome. discriminate. }
  assert (exists name run, j = JStr name /\
                           dict_get (tools chat_completion strategy_prompt) name = Some run)
    as (name & run & -> & Hr).
  { destruct j as [|b|z|s|l|d];
      try (rewrite (route_miss _ _ _ _ _ _ _ _ Ht) in Hsome by discriminate; discriminate).
    destruct (dict_get (tools chat_completion strategy_prompt) s) as [run|] eqn:Hr;
      [exists s, run; auto|].
    rewrite (route_miss _ _ _ _ _ _ _ _ Ht) in Hsome; [discriminate|].
    intros s' Hs. injection Hs as <-. exact Hr. }
  rewrite (route_dispatch _ _ _ _ _ _ _ name run Ht Hr) in Hsome.
  destruct (tools_entry_shape _ _ _ _ Hr) as (header & budget & Hrun & Hb & Hh).
  rewrite Hrun in Hsome.
  destruct (chat_completion _) as [reply|] eqn:Hreply; [|discriminate].
  injection Hsome as <-.
  exists name, header, budget, reply. repeat split; try tauto.
  - apply dict_get_some_in in Hr. change name with (fst (name, run)). now apply in_map.
  - destruct header; [discriminate|reflexivity].
Qed.



(** ** The chat front end *)

Lemma quota_message_not_rate_limit : App.quota_message <> App.rate_limit_message.
Proof. vm_compute. discriminate. Qed.

(** X12. The reply of [process_learning_query] to a failed request is the
    quota message exactly when the error text contains "insufficient_quota"
    or "exceeded your current quota" as written; it is the rate-limit
    message exactly when it is not a quota error and the error text contains
    "rate_limit" in any mix of upper and lower case; otherwise it quotes
    the error text. *)
Theorem error_reply_cases (error_msg : string) :
  (App.error_reply error_msg = App.quota_message <->
   App.quota_exceeded error_msg = true) /\
  (App.error_reply error_msg = App.rate_limit_message <->
   App.quota_exceeded error_msg = false /\
   contains "rate_limit" (lower error_msg) = true) /\
  (App.quota_exceeded error_msg = false ->
   contains "rate_limit" (lower error_msg) = false ->
   App.error_reply error_msg
   = ("I encountered an error while processing your question: " ++ error_msg
      ++ ". Please check your OpenAI API configuration.")%string /\
   contains error_msg (App.error_reply error_msg) = true).
Proof.
  assert (Hgeneric : forall rest : string,
            ("I encountered an error while processing your question: " ++ rest)%string
            <> App.quota_message /\
            ("I encountered an error while processing your question: " ++ rest)%string
            <> App.rate_limit_message).
  { intros rest. split; intros E; vm_compute in E; discriminate. }
  unfold App.error_reply, App.quota_exceeded.
  destruct (contains "insufficient_quota" error_msg
            || contains "exceeded your current quota" error_msg);
    destruct (contains "rate_limit" (lower error_msg));
    (split; [|split]);
    try (split; intros H);
    try (intros H1 H2; split);
    try reflexivity; try discriminate; try tauto;
    try (destruct H; discriminate);
    try (exfalso; apply quota_message_not_rate_limit; congruence);
    try (exfalso; apply (Hgeneric _) in H; exact H).
  apply contains_iff.
  exists "I encountered an error while processing your question: ",
    ". Please check your OpenAI API configuration.". reflexivity.
Qed.

(** An error text in capitals: recognised as a rate limit, not as a quota
    error. *)
Lemma error_reply_cases_witness :
  App.error_reply "Error code: 429 - RATE_LIMIT_EXCEEDED" = App.rate_limit_message /\
  App.error_reply "INSUFFICIENT_QUOTA"
  = "I encountered an error while processing your question: INSUFFICIENT_QUOTA. Please check your OpenAI API configuration.".
Proof.
  split.
  - apply (proj2 (proj1 (proj2 (error_reply_cases "Error code: 429 - RATE_LIMIT_EXCEEDED")))).
    split; vm_compute; reflexivity.
  - apply (proj2 (proj2 (error_reply_cases "INSUFFICIENT_QUOTA"))).
    + vm_compute. reflexivity.
    + vm_compute. reflexivity.
Defined.

Section FrontEndProperties.

Variable client : App.api_request -> App.outcome.
Variable json_loads : string -> result json.
Variable list_of_set : list string -> list string.
Variable tool_prompt : string -> dict json -> string.
Variable strategy_prompt : string -> string -> dict json -> string.
Variable system_prompt : string -> string -> string -> string -> string.

(** A reply of the router is returned as it is; only without one is the
    general request made. *)
Lemma process_learning_query_resolved m p query :
  App.process_learning_query client json_loads list_of_set tool_prompt strategy_prompt
    system_prompt m p query
  = match analyze_and_respond (App.tools_client client) json_loads tool_prompt
            strategy_prompt query (App.profile_dict p)
            (get_learning_context list_of_set m) with
    | Some tool_response => tool_response
    | None =>
        App.general_reply client system_prompt p (get_learning_context list_of_set m) query
    end.
Proof.
  unfold App.process_learning_query.
  destruct (analyze_and_respond _ _ _ _ _ _ _) as [text|] eqn:E; [|reflexivity].
  destruct (route_reply_shape _ _ _ _ _ _ _ _ E)
    as (name & header & budget & reply & _ & _ & _ & _ & _ & Ht).
  now rewrite Ht.
Qed.

End FrontEndProperties.

(** X13. [process_learning_query] returns the router's reply unchanged
    whenever the router gives one (it is never empty, so the truth test on it
    never sends it to the general path); otherwise it returns the model's
    reply to the general request, or, when that request fails, the error
    reply for the failure's text. *)
Theorem process_learning_query_paths
  (client : App.api_request -> App.outcome)
  (json_loads : string -> result json)
  (list_of_set : list string -> list string)
  (tool_prompt : string -> dict json -> string)
  (strategy_prompt : string -> string -> dict json -> string)
  (system_prompt : string -> string -> string -> string -> string)
  (m : memory) (p : App.learning_profile) (query : string) :
  let context := get_learning_context list_of_set m in
  let routed :=
    analyze_and_respond (App.tools_client client) json_loads tool_prompt strategy_prompt
      query (App.profile_dict p) context in
  let general :=
    client (App.mk_api_request "gpt-4o"
              [("system",
                system_prompt (App.join_or "Not specified" (App.preferred_subjects p))
                  (App.learning_level p)
                  (App.join_or "Not specified" (App.study_goals p)) context);
               ("user", query)] false 1000 (Some "0.7")) in
  let answer :=
    App.process_learning_query client json_loads list_of_set tool_prompt strategy_prompt
      system_prompt m p query in
  (forall text, routed = Some text -> answer = text) /\
  (forall text, routed = None -> general = App.Reply text -> answer = text) /\
  (forall error_msg, routed = None -> general = App.Failure error_msg ->
     answer = App.error_reply error_msg).
Proof.
  intros context routed general answer.
  unfold answer. rewrite process_learning_query_resolved.
  fold context. fold routed.
  repeat split.
  - intros text ->. reflexivity.
  - intros text -> Hg. unfold App.general_reply. fold general. now rewrite Hg.
  - intros msg -> Hg. unfold App.general_reply. fold general. now rewrite Hg.
Qed.

(** A throttled model, and one that answers. *)
Lemma process_learning_query_paths_witness :
  App.process_learning_query throttled_client loads_math_solver (nodup string_dec)
    (fun query _ => query) (fun _ query _ => query) (fun _ _ _ context => context)
    empty_memory sample_learner "Solve 2x + 3 = 7"
  = App.rate_limit_message /\
  App.process_learning_query answering_client loads_math_solver (nodup string_dec)
    (fun query _ => query) (fun _ query _ => query) (fun _ _ _ context => context)
    empty_memory sample_learner "Solve 2x + 3 = 7"
  = ("🔢 **Math Problem Solver**" ++ newline ++ newline ++ "x = 2")%string.
Proof.
  split.
  - change App.rate_limit_message
      with (App.error_reply "Error code: 429 - rate_limit_exceeded").
    apply (proj2 (proj2 (process_learning_query_paths throttled_client loads_math_solver
                           (nodup string_dec) (fun query _ => query)
                           (fun _ query _ => query) (fun _ _ _ context => context)
                           empty_memory sample_learner "Solve 2x + 3 = 7"))).
    + reflexivity.
    + reflexivity.
  - apply (proj1 (process_learning_query_paths answering_client loads_math_solver
                    (nodup string_dec) (fun query _ => query)
                    (fun _ query _ => query) (fun _ _ _ context => context)
                    empty_memory sample_learner "Solve 2x + 3 = 7")).
    reflexivity.
Defined.

Lemma last_n_snoc {A : Type} n (l : list A) x :
  0 < n -> exists older, last_n n (l ++ [x]) = older ++ [x].
Proof.
  intros Hn. unfold last_n. rewrite length_app. cbn [length].
  rewrite skipn_app.
  replace (length l + 1 - n - length l) with 0 by lia.
  eexists. reflexivity.
Qed.

(** X14. One pass of the chat input over a session keeps the memory within
    the states of a session and leaves the profile alone. With an empty
    prompt nothing changes. Otherwise the reply is computed from the memory
    as it was before the turn, the user's prompt and the reply are appended
    to the chat as two messages, and the pair becomes the newest entry of
    the log, which grows by one up to its cap of 50. *)
Theorem chat_turn_records
  (client : App.api_request -> App.outcome)
  (json_loads : string -> result json)
  (list_of_set : list string -> list string)
  (tool_prompt : string -> dict json -> string)
  (strategy_prompt : string -> string -> dict json -> string)
  (system_prompt : string -> string -> string -> string -> string)
  (now : Z) (prompt : string) (s : App.session) :
  reachable (App.session_memory s) ->
  let s' :=
    App.chat_turn client json_loads list_of_set tool_prompt strategy_prompt system_prompt
      now prompt s in
  let response :=
    App.process_learning_query client json_loads list_of_set tool_prompt strategy_prompt
      system_prompt (App.session_memory s) (App.session_profile s) prompt in
  reachable (App.session_memory s') /\
  App.session_profile s' = App.session_profile s /\
  (prompt = "" -> s' = s) /\
  (prompt <> "" ->
   App.chat_messages s'
   = App.chat_messages s ++ [("user", prompt); ("assistant", response)] /\
   (exists older,
      interactions (App.session_memory s')
      = older ++ [annotate now prompt (VStr response)]) /\
   length (interactions (App.session_memory s'))
   = Nat.min 50 (length (interactions (App.session_memory s)) + 1)).
Proof.
  intros Hm s' response. unfold s', App.chat_turn. fold response.
  destruct (truthy prompt) eqn:E.
  - cbn [App.session_memory App.session_profile App.chat_messages].
    split; [apply reach_add; exact Hm|]. split; [reflexivity|]. split.
    + intros ->. discriminate.
    + intros _. split; [reflexivity|].
      rewrite add_interaction_text_frame. cbn [interactions].
      split; [apply last_n_snoc; unfold max_interactions; lia|].
      rewrite length_last_n, length_app. reflexivity.
  - apply truthy_false in E. subst prompt.
    split; [exact Hm|]. split; [reflexivity|]. split; [reflexivity|].
    intros H. congruence.
Qed.

(** A first question to a throttled model: the rate-limit message is the
    reply, and the pair is recorded. *)
Lemma chat_turn_records_witness :
  let s := App.mk_session [] empty_memory sample_learner in
  let s' :=
    App.chat_turn throttled_client loads_math_solver (nodup string_dec)
      (fun query _ => query) (fun _ query _ => query) (fun _ _ _ context => context)
      5%Z "Explain photosynthesis" s in
  reachable (App.session_memory s') /\
  length (interactions (App.session_memory s')) = 1.
Proof.
  intros s s'.
  pose proof (chat_turn_records throttled_client loads_math_solver (nodup string_dec)
                (fun query _ => query) (fun _ query _ => query)
                (fun _ _ _ context => context) 5%Z "Explain photosynthesis" s
                reach_init) as H.
  cbv zeta in H. destruct H as (Hr & _ & _ & Hturn).
  split; [exact Hr|].
  destruct (Hturn ltac:(discriminate)) as (_ & _ & Hlen). exact Hlen.
Defined.

(** X15. The four quick tools never touch the memory or the profile. Each
    either shows a header and the model's reply and appends the two as one
    assistant message, or, on a failed request, shows one error and leaves
    the session as it was. With no preferred subject selected the study plan
    and the quiz only show a warning, whatever the model would answer. *)
Theorem quick_tools_effects
  (client : App.api_request -> App.outcome)
  (list_of_set : list string -> list string)
  (choice : list string -> string)
  (study_plan_prompt quiz_prompt techniques_prompt : string -> string -> string)
  (report_prompt : App.learning_profile -> string -> string)
  (s : App.session) :
  quick_tool_effect s (App.create_study_plan client study_plan_prompt s) /\
  quick_tool_effect s (App.generate_quiz client choice quiz_prompt s) /\
  quick_tool_effect s (App.show_progress_report client list_of_set report_prompt s) /\
  quick_tool_effect s (App.get_study_techniques client techniques_prompt s) /\
  (App.preferred_subjects (App.session_profile s) = [] ->
   App.create_study_plan client study_plan_prompt s
   = ([App.Warning "Please select your preferred subjects in the sidebar first."], s) /\
   App.generate_quiz client choice quiz_prompt s
   = ([App.Warning "Please select your preferred subjects in the sidebar first."], s)).
Proof.
  assert (Hkeep : forall events,
            (exists text, events = [App.Warning text] \/ events = [App.Error text]) ->
            quick_tool_effect s (events, s)).
  { intros events H. unfold quick_tool_effect. cbn [fst snd]. auto. }
  assert (Hshow : forall header reply,
            quick_tool_effect s
              ([App.Markdown header; App.Markdown reply],
               App.mk_session
                 (App.chat_messages s
                  ++ [("assistant", (header ++ newline ++ newline ++ reply)%string)])
                 (App.session_memory s) (App.session_profile s))).
  { intros header reply. unfold quick_tool_effect.
    cbn [fst snd App.session_memory App.session_profile App.chat_messages].
    split; [reflexivity|]. split; [reflexivity|]. left. eauto. }
  split; [|split; [|split; [|split]]].
  - unfold App.create_study_plan.
    destruct (App.preferred_subjects (App.session_profile s)); [apply Hkeep; eauto|].
    destruct (client _) as [reply|msg]; [apply Hshow|].
    destruct (App.quota_exceeded msg); apply Hkeep; eauto.
  - unfold App.generate_quiz.
    destruct (App.preferred_subjects (App.session_profile s)); [apply Hkeep; eauto|].
    destruct (client _) as [reply|msg].
    + match goal with
      | |- context [("assistant", (?a ++ ?b ++ ?c ++ ?rest)%string)] =>
          replace (a ++ b ++ c ++ rest)%string with ((a ++ b ++ c) ++ rest)%string
            by (now rewrite !append_assoc)
      end.
      apply Hshow.
    + destruct (App.quota_exceeded msg); apply Hkeep; eauto.
  - unfold App.show_progress_report.
    destruct (client _) as [reply|msg]; [apply Hshow|].
    destruct (App.quota_exceeded msg); apply Hkeep; eauto.
  - unfold App.get_study_techniques.
    destruct (client _) as [reply|msg]; [apply Hshow|].
    destruct (App.quota_exceeded msg); apply Hkeep; eauto.
  - intros Hnone. unfold App.create_study_plan, App.generate_quiz.
    rewrite Hnone. split; reflexivity.
Qed.

(** A learner without preferred subjects asks for a study plan. *)
Lemma quick_tools_effects_witness :
  let s := App.mk_session [("user", "Hello")] empty_memory sample_learner in
  App.create_study_plan answering_client (fun level subjects => subjects) s
  = ([App.Warning "Please select your preferred subjects in the sidebar first."], s).
Proof.
  intros s.
  apply (proj2 (proj2 (proj2 (proj2
           (quick_tools_effects answering_client (nodup string_dec) (fun l => "Physics")
              (fun level subjects => subjects) (fun level subject => subject)
              (fun level subjects => subjects) (fun _ summary => summary) s))))).
  reflexivity.
Defined.
